(** * Derivative-Pricing: the pricing engine and the payoff sweep

    A shallow embedding of [advanced_derivatives_pricing.py] (class
    [AdvancedDerivativesPricing]), of [PlotWidget.plot_payoff] from
    [plot_widget.py], of [ResultsDisplay] from [results_display.py] and of
    [MainWindow.calculate_and_update] from [main_window.py].

    - Python objects live in a store ([heap]); a method receives the address
      of [self], so that the in-place write [pricer.S = S] of [plot_payoff]
      and the fresh instances built by [calculate_greeks] are visible.
    - A method is a computation in the monad [M]: it threads the store and
      either returns a value or raises a Python exception ([exn]).
    - An attribute or an argument holds a float or Python's [None]
      ([option num]); operators applied to [None] raise [TypeError].
    - The arithmetic of floats is a parameter of the engine (carrier [num]
      with the operators and library functions the source calls).  It is
      instantiated twice below: with the real numbers (exact arithmetic,
      [norm.cdf] any function [N]), and with the reals extended by the
      IEEE-754 special values, for inputs that are not finite.
    - Arithmetic is total: rounding, overflow and the [ZeroDivisionError]
      of a division by a zero float are left out, so statements about
      prices are made for valid market parameters. *)

From Stdlib Require Import Reals Lra String List.
From stdpp Require Import base list.

Open Scope string_scope.

(** ** Exceptions and results *)

Inductive exn : Type :=
| ValueError (msg : string)
| TypeError
| AttributeError.

Inductive result (A : Type) : Type :=
| Ok (a : A)
| Raise (e : exn).

Arguments Ok {A} a.
Arguments Raise {A} e.

(** ** The engine over an arbitrary float arithmetic *)

Declare Scope float_scope.
Delimit Scope float_scope with fl.

Module Engine.

Section Arithmetic.

Context {num : Type}.

  (** Python's [+ - * /] on floats, [x ** y] with a float exponent,
      [x ** n] with an integer literal exponent and unary minus. *)
Variables (fadd fsub fmul fdiv fpow : num -> num -> num).
Variable fpowi : num -> nat -> num.
Variable fneg : num -> num.
  (** [np.log], [np.sqrt], [np.exp] and [scipy.stats.norm.cdf]. *)
Variables (np_log np_sqrt np_exp norm_cdf : num -> num).
  (** The comparisons [<=], [>=] and [>]. *)
Variables (fle fge fgt : num -> num -> bool).
  (** The float denoted by a numeric literal, and the float of an index
      (used by [np.linspace]). *)
Variable flit : R -> num.
Variable of_nat : nat -> num.

Local Infix "+" := fadd : float_scope.
Local Infix "-" := fsub : float_scope.
Local Infix "*" := fmul : float_scope.
Local Infix "/" := fdiv : float_scope.
Local Infix "**" := fpow (at level 30, right associativity) : float_scope.
Local Infix "^" := fpowi : float_scope.
Local Notation "- x" := (fneg x) : float_scope.
Local Infix "<=?" := fle : float_scope.
Local Infix ">=?" := fge (at level 70) : float_scope.
Local Infix ">?" := fgt (at level 70) : float_scope.
Local Notation "# x" := (flit x%R) (at level 9, x at level 9) : float_scope.

  (** *** Objects and the store *)

  (** An instance of [AdvancedDerivativesPricing]: the five attributes set
      by [__init__]. *)
Record engine : Type := AdvancedDerivativesPricing {
    S : option num;
    K : option num;
    T : option num;
    r : option num;
    sigma : option num
  }.

Definition set_S (v : option num) (e : engine) : engine :=
    AdvancedDerivativesPricing v (K e) (T e) (r e) (sigma e).
Definition set_T (v : option num) (e : engine) : engine :=
    AdvancedDerivativesPricing (S e) (K e) v (r e) (sigma e).
Definition set_r (v : option num) (e : engine) : engine :=
    AdvancedDerivativesPricing (S e) (K e) (T e) v (sigma e).
Definition set_sigma (v : option num) (e : engine) : engine :=
    AdvancedDerivativesPricing (S e) (K e) (T e) (r e) v.

Definition loc : Type := nat.
Definition heap : Type := list engine.

  (** *** The monad of methods: store passing with exceptions.  A raised
      exception keeps the writes made before it. *)

Definition M (A : Type) : Type := heap -> heap * result A.

Definition ret {A} (a : A) : M A := fun h => (h, Ok a).
Definition raise {A} (e : exn) : M A := fun h => (h, Raise e).
Definition bind {A B} (m : M A) (k : A -> M B) : M B :=
    fun h => match m h with
             | (h', Ok a) => k a h'
             | (h', Raise e) => (h', Raise e)
             end.

Local Notation "x <- m ;; k" := (bind m (fun x => k))
    (at level 100, m at next level, right associativity).
Local Notation "m ;;; k" := (bind m (fun _ => k))
    (at level 100, right associativity).

  (** Reading the object behind a reference. *)
Definition deref (l : loc) : M engine :=
    fun h => match h !! l with
             | Some e => (h, Ok e)
             | None => (h, Raise AttributeError)
             end.

  (** [obj.S = v]. *)
Definition setattr_S (l : loc) (v : option num) : M unit :=
    fun h => match h !! l with
             | Some e => (<[l := set_S v e]> h, Ok tt)
             | None => (h, Raise AttributeError)
             end.

  (** [AdvancedDerivativesPricing(S, K, T, r, sigma)]: a fresh object. *)
Definition new (S K T r sigma : option num) : M loc :=
    fun h => ((h ++ [AdvancedDerivativesPricing S K T r sigma])%list,
              Ok (List.length h)).

  (** A float operand: an operator applied to [None] raises [TypeError]. *)
Definition as_float (v : option num) : M num :=
    match v with
    | Some x => ret x
    | None => raise TypeError
    end.

  (** [None in (v1, ..., vn)]. *)
Definition None_in (vs : list (option num)) : bool :=
    existsb (fun v => match v with None => true | Some _ => false end) vs.

  (** *** [_d1] and [_d2] *)

Definition _d1 (S K T r sigma : num) : num :=
    ((np_log (S / K) + (r + #0.5 * sigma ^ 2) * T) / (sigma * np_sqrt T))%fl.

Definition _d2 (d1 sigma T : num) : num :=
    (d1 - sigma * np_sqrt T)%fl.

  (** *** [price_barrier_option]

      The attributes of [self] are read once, after which the body is the
      source's: the guard, the derived quantities and the dispatch.  The
      integer [0] returned by the knocked-out branches is the float zero.
      A barrier type that matches no [elif] falls off the end of the
      function, which returns [None]. *)
Definition price_barrier_option (self : loc)
      (option_type barrier_type : string) (barrier : option num)
      : M (option num) :=
    e <- deref self ;;
    if None_in [S e; K e; T e; r e; sigma e; barrier]
    then raise (ValueError "All parameters must be non-None")
    else
      self_S <- as_float (S e) ;;
      self_K <- as_float (K e) ;;
      self_T <- as_float (T e) ;;
      self_r <- as_float (r e) ;;
      self_sigma <- as_float (sigma e) ;;
      barrier <- as_float barrier ;;
      let d1 := _d1 self_S self_K self_T self_r self_sigma in
      let d2 := _d2 d1 self_sigma self_T in
      let lambda_ :=
        ((self_r - #0.5 * self_sigma ^ 2) / self_sigma ^ 2)%fl in
      let y :=
        (np_log (barrier ^ 2 / (self_S * self_K))
           / (self_sigma * np_sqrt self_T)
         + lambda_ * self_sigma * np_sqrt self_T)%fl in
      let x1 :=
        (np_log (self_S / barrier) / (self_sigma * np_sqrt self_T)
         + lambda_ * self_sigma * np_sqrt self_T)%fl in
      let y1 :=
        (np_log (barrier / self_S) / (self_sigma * np_sqrt self_T)
         + lambda_ * self_sigma * np_sqrt self_T)%fl in
      if String.eqb option_type "call" then
        if String.eqb barrier_type "down-and-out" then
          if (self_S <=? barrier)%fl then ret (Some (#0)%fl)
          else ret (Some
            (self_S * norm_cdf d1
             - self_K * np_exp (- self_r * self_T) * norm_cdf d2
             - self_S * (barrier / self_S) ** (#2 * lambda_)
               * (norm_cdf (- x1) - norm_cdf (- y)))%fl)
        else if String.eqb barrier_type "up-and-out" then
          if (self_S >=? barrier)%fl then ret (Some (#0)%fl)
          else ret (Some
            (self_S * norm_cdf d1
             - self_K * np_exp (- self_r * self_T) * norm_cdf d2
             - self_S * (barrier / self_S) ** (#2 * lambda_)
               * (norm_cdf y - norm_cdf x1))%fl)
        else if String.eqb barrier_type "down-and-in" then
          if (self_S <=? barrier)%fl then ret (Some
            (self_S * norm_cdf d1
             - self_K * np_exp (- self_r * self_T) * norm_cdf d2)%fl)
          else ret (Some
            (self_S * (barrier / self_S) ** (#2 * lambda_)
             * norm_cdf (- x1))%fl)
        else if String.eqb barrier_type "up-and-in" then
          if (self_S >=? barrier)%fl then ret (Some
            (self_S * norm_cdf d1
             - self_K * np_exp (- self_r * self_T) * norm_cdf d2)%fl)
          else ret (Some
            (self_S * (barrier / self_S) ** (#2 * lambda_)
             * norm_cdf y)%fl)
        else ret None
      else if String.eqb option_type "put" then
        if String.eqb barrier_type "down-and-out" then
          if (self_S <=? barrier)%fl then ret (Some (#0)%fl)
          else ret (Some
            (self_K * np_exp (- self_r * self_T) * norm_cdf (- d2)
             - self_S * norm_cdf (- d1)
             + self_S * (barrier / self_S) ** (#2 * lambda_)
               * (norm_cdf (- y) - norm_cdf (- x1)))%fl)
        else if String.eqb barrier_type "up-and-out" then
          if (self_S >=? barrier)%fl then ret (Some (#0)%fl)
          else ret (Some
            (self_K * np_exp (- self_r * self_T) * norm_cdf (- d2)
             - self_S * norm_cdf (- d1)
             + self_S * (barrier / self_S) ** (#2 * lambda_)
               * (norm_cdf x1 - norm_cdf y))%fl)
        else if String.eqb barrier_type "down-and-in" then
          if (self_S <=? barrier)%fl then ret (Some
            (self_K * np_exp (- self_r * self_T) * norm_cdf (- d2)
             - self_S * norm_cdf (- d1))%fl)
          else ret (Some
            (self_S * (barrier / self_S) ** (#2 * lambda_)
             * norm_cdf (- y))%fl)
        else if String.eqb barrier_type "up-and-in" then
          if (self_S >=? barrier)%fl then ret (Some
            (self_K * np_exp (- self_r * self_T) * norm_cdf (- d2)
             - self_S * norm_cdf (- d1))%fl)
          else ret (Some
            (self_S * (barrier / self_S) ** (#2 * lambda_)
             * norm_cdf x1)%fl)
        else ret None
      else raise (ValueError ("Invalid option type: " ++ option_type)).

  (** A binary operator applied to two values that may be [None]. *)
Definition binop (f : num -> num -> num) (a b : option num) : M num :=
    x <- as_float a ;;
    y <- as_float b ;;
    ret (f x y).

  (** Python's [max(a, b)]: the first argument unless the second is
      greater. *)
Definition py_max (a b : num) : num :=
    if (b >? a)%fl then b else a.

  (** *** [calculate_greeks]

      Each statement reads the attributes of [self] again; each perturbed
      price is asked of a newly built instance.  The dictionary is the list
      of its items in insertion order. *)
Definition calculate_greeks (self : loc)
      (option_type barrier_type : string) (barrier : option num)
      : M (list (string * num)) :=
    e <- deref self ;;
    if None_in [S e; K e; T e; r e; sigma e; barrier]
    then raise (ValueError "All parameters must be non-None")
    else
      let eps := (#1e-5)%fl in
      price <- price_barrier_option self option_type barrier_type barrier ;;
      (* Delta *)
      e <- deref self ;;
      S_up <- binop fadd (S e) (Some eps) ;;
      o <- new (Some S_up) (K e) (T e) (r e) (sigma e) ;;
      price_up <- price_barrier_option o option_type barrier_type barrier ;;
      d <- binop fsub price_up price ;;
      let delta := (d / eps)%fl in
      (* Gamma *)
      e <- deref self ;;
      S_down <- binop fsub (S e) (Some eps) ;;
      o <- new (Some S_down) (K e) (T e) (r e) (sigma e) ;;
      price_down <- price_barrier_option o option_type barrier_type barrier ;;
      p2 <- binop fmul (Some (#2)%fl) price ;;
      g <- binop fsub price_up (Some p2) ;;
      g <- binop fadd (Some g) price_down ;;
      let gamma := (g / eps ^ 2)%fl in
      (* Vega *)
      e <- deref self ;;
      sigma_up <- binop fadd (sigma e) (Some eps) ;;
      o <- new (S e) (K e) (T e) (r e) (Some sigma_up) ;;
      price_sigma_up <-
        price_barrier_option o option_type barrier_type barrier ;;
      v <- binop fsub price_sigma_up price ;;
      let vega := (v / eps)%fl in
      (* Theta *)
      e <- deref self ;;
      t <- binop fsub (T e) (Some (eps / #365)%fl) ;;
      let T_down := py_max t eps in
      o <- new (S e) (K e) (Some T_down) (r e) (sigma e) ;;
      price_T_down <-
        price_barrier_option o option_type barrier_type barrier ;;
      th <- binop fsub price_T_down price ;;
      let theta := (th / (eps / #365))%fl in
      (* Rho *)
      e <- deref self ;;
      r_up <- binop fadd (r e) (Some eps) ;;
      o <- new (S e) (K e) (T e) (Some r_up) (sigma e) ;;
      price_r_up <- price_barrier_option o option_type barrier_type barrier ;;
      rh <- binop fsub price_r_up price ;;
      let rho := (rh / eps)%fl in
      ret [("Delta", delta); ("Gamma", gamma); ("Vega", vega);
           ("Theta", theta); ("Rho", rho)].

  (** *** [price_futures] *)
Definition price_futures (self : loc)
      (storage_cost convenience_yield : num) : M num :=
    e <- deref self ;;
    if None_in [S e; T e; r e]
    then raise (ValueError "S, T, and r must be non-None")
    else
      let net_cost := (storage_cost - convenience_yield)%fl in
      self_S <- as_float (S e) ;;
      self_r <- as_float (r e) ;;
      self_T <- as_float (T e) ;;
      let futures_price :=
        (self_S * np_exp ((self_r + net_cost) * self_T))%fl in
      ret futures_price.

  (** [price_futures()] with both keyword arguments left at their default
      [0]. *)
Definition price_futures_default (self : loc) : M num :=
    price_futures self (#0)%fl (#0)%fl.

  (** *** [price_cfd] *)
Definition price_cfd (self : loc) (position : string)
      (financing_rate holding_period : num) : M num :=
    e <- deref self ;;
    if None_in [S e; r e]
    then raise (ValueError "S and r must be non-None")
    else
      self_S <- as_float (S e) ;;
      self_r <- as_float (r e) ;;
      let daily_price_change :=
        (self_S * (np_exp (self_r * (holding_period / #365)) - #1))%fl in
      let financing_cost :=
        (self_S * financing_rate * holding_period / #365)%fl in
      if String.eqb position "long" then
        ret (daily_price_change - financing_cost)%fl
      else if String.eqb position "short" then
        ret (- daily_price_change - financing_cost)%fl
      else raise (ValueError "Invalid position type").

  (** *** [PlotWidget.plot_payoff] *)

  (** [np.linspace(start, stop, num)] with the end point included:
      [arange(num) * step + start] with [step = (stop - start) / (num - 1)],
      the last sample then set to [stop]. *)
Definition linspace (start stop : num) (n : nat) : list num :=
    match n with
    | 0%nat => []
    | 1%nat => [start]
    | _ =>
        let step := ((stop - start) / of_nat (n - 1))%fl in
        (map (fun i => (of_nat i * step + start)%fl) (seq 0 (n - 1))
           ++ [stop])%list
    end.

  (** A [for] loop that appends one result per element. *)
Fixpoint for_each {A B} (xs : list A) (body : A -> M B) : M (list B) :=
    match xs with
    | [] => ret []
    | x :: xs' =>
        b <- body x ;;
        bs <- for_each xs' body ;;
        ret (b :: bs)
    end.

  (** The sweep of [plot_payoff]: the two sequences handed to [ax.plot].
      The calls that only draw (axes, labels, canvas) are left out. *)
Definition plot_payoff (pricer : loc)
      (option_type barrier_type : string) (barrier : option num)
      : M (list num * list (option num)) :=
    e <- deref pricer ;;
    lo <- binop fmul (K e) (Some (#0.5)%fl) ;;
    e <- deref pricer ;;
    hi <- binop fmul (K e) (Some (#1.5)%fl) ;;
    let stock_prices := linspace lo hi 100 in
    option_prices <-
      for_each stock_prices (fun S =>
        setattr_S pricer (Some S) ;;;
        price_barrier_option pricer option_type barrier_type barrier) ;;
    ret (stock_prices, option_prices).

  (** The outcome of [price_barrier_option] on an object whose attributes
      are those of [e]. *)
Definition price_result (e : engine)
      (option_type barrier_type : string) (barrier : option num)
      : result (option num) :=
    snd (price_barrier_option 0%nat option_type barrier_type barrier [e]).

(** [e'] is a copy of [e] in which at most one attribute, among the four
    that [calculate_greeks] perturbs, has another value. *)
Definition perturbs (e e' : engine) : Prop :=
  e' = set_S (S e') e \/ e' = set_sigma (sigma e') e
  \/ e' = set_T (T e') e \/ e' = set_r (r e') e.

End Arithmetic.

End Engine.

Import Engine.

(** ** Floats with the IEEE-754 special values

    A finite float is idealised as the real number it denotes (no rounding,
    no overflow, one zero); the three other values are the infinities and
    NaN.  Only the operations used by [price_futures] are given, with the
    special cases of IEEE-754 arithmetic. *)

Module IEEE.

Inductive xfloat : Type :=
  | Fin (x : R)
  | PInf
  | NInf
  | NaN.

  (** [math.isfinite]. *)
Definition isfinite (a : xfloat) : bool :=
    match a with Fin _ => true | _ => false end.

Definition xneg (a : xfloat) : xfloat :=
    match a with
    | Fin x => Fin (- x)
    | PInf => NInf
    | NInf => PInf
    | NaN => NaN
    end.

Definition xadd (a b : xfloat) : xfloat :=
    match a, b with
    | NaN, _ | _, NaN => NaN
    | Fin x, Fin y => Fin (x + y)
    | PInf, NInf | NInf, PInf => NaN
    | PInf, _ | _, PInf => PInf
    | NInf, _ | _, NInf => NInf
    end.

Definition xsub (a b : xfloat) : xfloat := xadd a (xneg b).

  (** An infinity of the given sign times the finite [y]. *)
Definition inf_times (positive : bool) (y : R) : xfloat :=
    if Rlt_dec 0 y then (if positive then PInf else NInf)
    else if Rlt_dec y 0 then (if positive then NInf else PInf)
    else NaN.

Definition xmul (a b : xfloat) : xfloat :=
    match a, b with
    | NaN, _ | _, NaN => NaN
    | Fin x, Fin y => Fin (x * y)
    | PInf, Fin y | Fin y, PInf => inf_times true y
    | NInf, Fin y | Fin y, NInf => inf_times false y
    | PInf, PInf | NInf, NInf => PInf
    | PInf, NInf | NInf, PInf => NInf
    end.

Definition xexp (a : xfloat) : xfloat :=
    match a with
    | Fin x => Fin (exp x)
    | PInf => PInf
    | NInf => Fin 0
    | NaN => NaN
    end.

Definition price_futures : loc -> xfloat -> xfloat -> M xfloat :=
    Engine.price_futures xadd xsub xmul xexp.

End IEEE.

(** ** The engine over the real numbers

    Exact arithmetic: [**] with a float exponent is [Rpower], [np.log] is
    [ln], [norm.cdf] is a function [N] on which nothing is assumed.  The
    division, [ln] and [Rpower] of the reals are total, where Python raises
    [ZeroDivisionError] or yields NaN: the barrier prices are those of the
    source for S, K, T, sigma and the barrier positive, and the Greeks for
    a spot above the step [1e-5] as well. *)

Module Exact.

Definition Rleb (x y : R) : bool := if Rle_dec x y then true else false.
Definition Rgeb (x y : R) : bool := if Rge_dec x y then true else false.
Definition Rgtb (x y : R) : bool := if Rgt_dec x y then true else false.

Definition price_futures : loc -> R -> R -> M R :=
    Engine.price_futures Rplus Rminus Rmult exp.

Definition price_futures_default : loc -> M R :=
    Engine.price_futures_default Rplus Rminus Rmult exp (fun x => x).

Definition price_cfd : loc -> string -> R -> R -> M R :=
    Engine.price_cfd Rminus Rmult Rdiv Ropp exp (fun x => x).

Section WithCdf.

Variable N : R -> R.

Definition price_barrier_option
      : loc -> string -> string -> option R -> M (option R) :=
      Engine.price_barrier_option Rplus Rminus Rmult Rdiv Rpower pow Ropp
        ln sqrt exp N Rleb Rgeb (fun x => x).

Definition calculate_greeks
      : loc -> string -> string -> option R -> M (list (string * R)) :=
      Engine.calculate_greeks Rplus Rminus Rmult Rdiv Rpower pow Ropp
        ln sqrt exp N Rleb Rgeb Rgtb (fun x => x).

Definition plot_payoff
      : loc -> string -> string -> option R
        -> M (list R * list (option R)) :=
      Engine.plot_payoff Rplus Rminus Rmult Rdiv Rpower pow Ropp
        ln sqrt exp N Rleb Rgeb (fun x => x) INR.

Definition price_result
  : engine -> string -> string -> option R -> result (option R) :=
  Engine.price_result Rplus Rminus Rmult Rdiv Rpower pow Ropp
    ln sqrt exp N Rleb Rgeb (fun x => x).

End WithCdf.

End Exact.

(** ** The barrier formula as the specification tabulates it *)

Module Spec.

Local Open Scope R_scope.

Inductive OptionType : Type := Call | Put.
Inductive BarrierType : Type := UpAndIn | UpAndOut | DownAndIn | DownAndOut.

Definition option_name (ot : OptionType) : string :=
    match ot with Call => "call" | Put => "put" end.

Definition barrier_name (bt : BarrierType) : string :=
    match bt with
    | UpAndIn => "up-and-in"
    | UpAndOut => "up-and-out"
    | DownAndIn => "down-and-in"
    | DownAndOut => "down-and-out"
    end.

Section Formula.

Variable N : R -> R.
Variables S K T r sigma H : R.

Definition d1 : R := (ln (S / K) + (r + sigma ^ 2 / 2) * T) / (sigma * sqrt T).
Definition d2 : R := d1 - sigma * sqrt T.
Definition lambda : R := (r - sigma ^ 2 / 2) / sigma ^ 2.
Definition y : R :=
      ln (H ^ 2 / (S * K)) / (sigma * sqrt T) + lambda * sigma * sqrt T.
Definition x1 : R :=
      ln (S / H) / (sigma * sqrt T) + lambda * sigma * sqrt T.

    (** The ordinary Black-Scholes price. *)
Definition vanilla (ot : OptionType) : R :=
      match ot with
      | Call => S * N d1 - K * exp (- (r * T)) * N d2
      | Put => K * exp (- (r * T)) * N (- d2) - S * N (- d1)
      end.

    (** The knock condition of a row. *)
Definition knock (bt : BarrierType) : Prop :=
      match bt with
      | DownAndIn | DownAndOut => S <= H
      | UpAndIn | UpAndOut => S >= H
      end.

Definition knock_dec (bt : BarrierType) : {knock bt} + {~ knock bt} :=
      match bt with
      | DownAndIn | DownAndOut => Rle_dec S H
      | UpAndIn | UpAndOut => Rge_dec S H
      end.

    (** The value returned when the knock condition holds. *)
Definition degenerate (ot : OptionType) (bt : BarrierType) : R :=
      match bt with
      | UpAndOut | DownAndOut => 0
      | UpAndIn | DownAndIn => vanilla ot
      end.

    (** The active-region formula of a row. *)
Definition active (ot : OptionType) (bt : BarrierType) : R :=
      let A := S * Rpower (H / S) (2 * lambda) in
      match ot, bt with
      | Call, DownAndOut => vanilla Call - A * (N (- x1) - N (- y))
      | Call, UpAndOut => vanilla Call - A * (N y - N x1)
      | Call, DownAndIn => A * N (- x1)
      | Call, UpAndIn => A * N y
      | Put, DownAndOut =>
          K * exp (- (r * T)) * N (- d2) - S * N (- d1)
          + A * (N (- y) - N (- x1))
      | Put, UpAndOut =>
          K * exp (- (r * T)) * N (- d2) - S * N (- d1)
          + A * (N x1 - N y)
      | Put, DownAndIn => A * N (- y)
      | Put, UpAndIn => A * N x1
      end.

Definition barrier_price (ot : OptionType) (bt : BarrierType) : R :=
      if knock_dec bt then degenerate ot bt else active ot bt.

End Formula.

(** *** The finite-difference Greeks of section 4.2 *)

Definition eps : R := 1e-5.

(** The perturbed maturity of Theta: [T - eps/365], floored at [eps]. *)
Definition T_floored (T : R) : R := Rmax (T - eps / 365) eps.

Section Greeks.

Variable N : R -> R.
Variable ot : OptionType.
Variable bt : BarrierType.
Variables S K T r sigma H : R.

Definition price (S K T r sigma : R) : R :=
  barrier_price N S K T r sigma H ot bt.

Definition P0 : R := price S K T r sigma.

Definition Delta : R := (price (S + eps) K T r sigma - P0) / eps.
Definition Gamma : R :=
  (price (S + eps) K T r sigma - 2 * P0 + price (S - eps) K T r sigma)
  / eps ^ 2.
Definition Vega : R := (price S K T r (sigma + eps) - P0) / eps.
Definition Theta : R :=
  (price S K (T_floored T) r sigma - P0) / (eps / 365).
Definition Rho : R := (price S K T (r + eps) sigma - P0) / eps.

Definition greeks : list (string * R) :=
  [("Delta", Delta); ("Gamma", Gamma); ("Vega", Vega);
   ("Theta", Theta); ("Rho", Rho)].

End Greeks.

(** *** The payoff curve of section 6: 100 evenly spaced spot samples from
    [0.5 K] to [1.5 K]. *)

Definition sample (K : R) (i : nat) : R :=
  0.5 * K + INR i * ((1.5 * K - 0.5 * K) / 99).

Definition samples (K : R) : list R := map (sample K) (seq 0 100).

End Spec.

(** ** Concrete inputs used by the examples *)

Module Examples.

Local Open Scope R_scope.

(** A function with the shape of a cumulative distribution function. *)
Definition logistic (x : R) : R := / (1 + exp (- x)).

(** S=100, K=100, T=1, r=0.05, sigma=0.2. *)
Definition market : engine :=
  AdvancedDerivativesPricing (Some 100) (Some 100) (Some 1) (Some 0.05)
    (Some 0.2).

(** S=100, K=64, T=1, r=0.02, sigma=0.2: with the barrier at 80 the
    quantities [lambda] and [y] are both zero. *)
Definition parity_market : engine :=
  AdvancedDerivativesPricing (Some 100) (Some 64) (Some 1) (Some 0.02)
    (Some 0.2).

(** Only S and r are set. *)
Definition spot_and_rate : engine :=
  AdvancedDerivativesPricing (Some 100) None None (Some 0.05) None.

(** The spot is NaN. *)
Definition nan_spot : engine :=
  AdvancedDerivativesPricing (Some IEEE.NaN) (Some (IEEE.Fin 100))
    (Some (IEEE.Fin 1)) (Some (IEEE.Fin 0.05)) (Some (IEEE.Fin 0.2)).

(** The strike is missing. *)
Definition no_strike : engine :=
  AdvancedDerivativesPricing (Some 100) None (Some 1) (Some 0.05)
    (Some 0.2).

End Examples.

(** ** The results panel and the main window

    [results_display.py] and [MainWindow.calculate_and_update] of
    [main_window.py].  What the form holds when Calculate is pressed is a
    record of texts; the panel is the texts of its labels and the cells of
    its grid; a message box or a started timer is the effect a call ends
    with.  [float(text)] and the fixed-point formatting of an f-string are
    parameters, like the arithmetic. *)

Module Gui.

Section Widgets.

Context {num : Type}.
Variables (fadd fsub fmul fdiv fpow : num -> num -> num).
Variable fpowi : num -> nat -> num.
Variable fneg : num -> num.
Variables (np_log np_sqrt np_exp norm_cdf : num -> num).
Variables (fle fge fgt : num -> num -> bool).
Variable flit : R -> num.

(** [float(value)] on a text. *)
Variable py_float : string -> result num.
(** [f"{x:.nf}"]: [x] with [n] digits after the point. *)
Variable format_f : nat -> num -> string.

(** *** [ResultsDisplay] *)

(** A label placed in the grid by [addWidget(QLabel(text, ...), row, column)]. *)
Record cell : Type := QLabel {
  text : string;
  align_right : bool;
  row : nat;
  column : nat
}.

Record ResultsDisplay : Type := {
  price_label : string;
  greeks_layout : list cell;
  futures_price_label : string;
  cfd_price_label : string
}.

(** [while self.greeks_layout.count(): self.greeks_layout.takeAt(0) ...]. *)
Fixpoint take_all (layout : list cell) : list cell :=
  match layout with
  | [] => []
  | _ :: rest => take_all rest
  end.

Definition clear_results (self : ResultsDisplay) : ResultsDisplay :=
  {| price_label := "";
     futures_price_label := "";
     cfd_price_label := "";
     greeks_layout := take_all (greeks_layout self) |}.

(** [for i, (greek, value) in enumerate(greeks.items())], from index [i]. *)
Fixpoint add_greeks (i : nat) (items : list (string * num))
    (layout : list cell) : list cell :=
  match items with
  | [] => layout
  | (greek, value) :: rest =>
      add_greeks (Datatypes.S i) rest
        (layout ++ [QLabel (greek ++ ":") true i 0;
                    QLabel (format_f 6 value) false i 1])%list
  end.

(** [update_results]: formatting a price that is [None] raises
    [TypeError], after the panel has been cleared. *)
Definition update_results (self : ResultsDisplay) (price : option num)
    (greeks : list (string * num)) (futures_price cfd_price : num)
    : ResultsDisplay * result unit :=
  let self := clear_results self in
  match price with
  | None => (self, Raise TypeError)
  | Some price =>
      ({| price_label := "Barrier Option Price: " ++ format_f 4 price;
          greeks_layout := add_greeks 0 greeks (greeks_layout self);
          futures_price_label :=
            "Futures Price: " ++ format_f 4 futures_price;
          cfd_price_label := "CFD Price: " ++ format_f 4 cfd_price |},
       Ok tt)
  end.

(** *** [MainWindow.calculate_and_update] *)

(** The texts of the ten line edits and of the three combo boxes of
    [ParameterInput]. *)
Record ParameterInput : Type := {
  S_text : string;
  K_text : string;
  T_text : string;
  r_text : string;
  sigma_text : string;
  barrier_text : string;
  storage_cost_text : string;
  convenience_yield_text : string;
  financing_rate_text : string;
  holding_period_text : string;
  option_type : string;
  barrier_type : string;
  cfd_position : string
}.

(** What a call ends with: the timer that will draw the plot, or a message
    box.  The text of the critical box is built from the exception and its
    traceback; the exception stands for it. *)
Inductive effect : Type :=
| singleShot (msec : nat) (pricer : loc)
    (option_type barrier_type : string) (barrier : option num)
| warning (title text : string)
| critical (title : string) (e : exn).

(** The nested helper [safe_float(value, name)]. *)
Definition safe_float (value name : string) : M (num:=num) num :=
  if String.eqb value ""
  then raise (ValueError (name ++ " cannot be empty"))
  else fun h => (h, py_float value).

Local Notation "x <- m ;; k" := (bind m (fun x => k))
  (at level 100, m at next level, right associativity).

(** The statements of the [try] block up to the four prices. *)
Definition prices (input : ParameterInput)
    : M (loc * option num * list (string * num) * num * num * num) :=
  S <- safe_float (S_text input) "Spot Price" ;;
  K <- safe_float (K_text input) "Strike Price" ;;
  T <- safe_float (T_text input) "Time to Maturity" ;;
  r <- safe_float (r_text input) "Risk-free Rate" ;;
  sigma <- safe_float (sigma_text input) "Volatility" ;;
  barrier <- safe_float (barrier_text input) "Barrier" ;;
  storage_cost <- safe_float (storage_cost_text input) "Storage Cost" ;;
  convenience_yield <-
    safe_float (convenience_yield_text input) "Convenience Yield" ;;
  financing_rate <-
    safe_float (financing_rate_text input) "Financing Rate" ;;
  holding_period <-
    safe_float (holding_period_text input) "Holding Period" ;;
  pricer <- new (Some S) (Some K) (Some T) (Some r) (Some sigma) ;;
  price <-
    Engine.price_barrier_option fadd fsub fmul fdiv fpow fpowi fneg
      np_log np_sqrt np_exp norm_cdf fle fge flit
      pricer (option_type input) (barrier_type input) (Some barrier) ;;
  greeks <-
    Engine.calculate_greeks fadd fsub fmul fdiv fpow fpowi fneg
      np_log np_sqrt np_exp norm_cdf fle fge fgt flit
      pricer (option_type input) (barrier_type input) (Some barrier) ;;
  futures_price <-
    Engine.price_futures fadd fsub fmul np_exp
      pricer storage_cost convenience_yield ;;
  cfd_price <-
    Engine.price_cfd fsub fmul fdiv fneg np_exp flit
      pricer (cfd_position input) financing_rate holding_period ;;
  ret (pricer, price, greeks, futures_price, cfd_price, barrier).

(** The two [except] clauses. *)
Definition handler (e : exn) : effect :=
  match e with
  | ValueError msg => warning "Input Error" msg
  | _ => critical "Error" e
  end.

Definition calculate_and_update (input : ParameterInput)
    (h : heap (num:=num)) (results_display : ResultsDisplay)
    : heap (num:=num) * ResultsDisplay * effect :=
  match prices input h with
  | (h', Ok (pricer, price, greeks, futures_price, cfd_price, barrier)) =>
      match update_results results_display price greeks
              futures_price cfd_price with
      | (d', Ok _) =>
          (h', d',
           singleShot 100 pricer (option_type input) (barrier_type input)
             (Some barrier))
      | (d', Raise e) => (h', d', handler e)
      end
  | (h', Raise e) => (h', results_display, handler e)
  end.

(** The line edits in the order they are read, with the names used in the
    messages. *)
Definition entries (input : ParameterInput) : list (string * string) :=
  [(S_text input, "Spot Price");
   (K_text input, "Strike Price");
   (T_text input, "Time to Maturity");
   (r_text input, "Risk-free Rate");
   (sigma_text input, "Volatility");
   (barrier_text input, "Barrier");
   (storage_cost_text input, "Storage Cost");
   (convenience_yield_text input, "Convenience Yield");
   (financing_rate_text input, "Financing Rate");
   (holding_period_text input, "Holding Period")].

End Widgets.

End Gui.

(** The main window over the real numbers. *)

Module ExactGui.

Section WithLibrary.

Variable N : R -> R.
Variable py_float : string -> result R.
Variable format_f : nat -> R -> string.

Definition calculate_and_update
  : Gui.ParameterInput -> heap -> Gui.ResultsDisplay
    -> heap * Gui.ResultsDisplay * Gui.effect :=
  Gui.calculate_and_update Rplus Rminus Rmult Rdiv Rpower pow Ropp
    ln sqrt exp N Exact.Rleb Exact.Rgeb Exact.Rgtb (fun x => x)
    py_float format_f.

End WithLibrary.

End ExactGui.

(** Concrete inputs for the main window. *)

Module GuiExamples.

Local Open Scope R_scope.

(** A stand-in for [float] that knows the texts of the examples. *)
Definition known_texts : list (string * R) :=
  [("100", 100); ("1", 1); ("0.05", 0.05); ("0.2", 0.2); ("120", 120);
   ("0.02", 0.02); ("0.01", 0.01); ("0.0002", 0.0002); ("30", 30)].

Fixpoint assoc (key : string) (table : list (string * R)) : option R :=
  match table with
  | [] => None
  | (k, v) :: rest => if String.eqb key k then Some v else assoc key rest
  end.

Definition float_of_text (value : string) : result R :=
  match assoc value known_texts with
  | Some v => Ok v
  | None => Raise (ValueError ("could not convert string to float: " ++ value))
  end.

(** A stand-in for the f-string formatting. *)
Definition format_as_hash (digits : nat) (x : R) : string := "#".

(** S=100, K=100, T=1, r=0.05, sigma=0.2, barrier 120, call, up-and-out,
    storage cost 0.02, convenience yield 0.01, a long CFD at 0.0002 for 30
    days. *)
Definition filled_form : Gui.ParameterInput :=
  {| Gui.S_text := "100"; Gui.K_text := "100"; Gui.T_text := "1";
     Gui.r_text := "0.05"; Gui.sigma_text := "0.2";
     Gui.barrier_text := "120"; Gui.storage_cost_text := "0.02";
     Gui.convenience_yield_text := "0.01";
     Gui.financing_rate_text := "0.0002";
     Gui.holding_period_text := "30";
     Gui.option_type := "call"; Gui.barrier_type := "up-and-out";
     Gui.cfd_position := "long" |}.

(** The same form with the strike left empty. *)
Definition form_without_strike : Gui.ParameterInput :=
  {| Gui.S_text := "100"; Gui.K_text := ""; Gui.T_text := "1";
     Gui.r_text := "0.05"; Gui.sigma_text := "0.2";
     Gui.barrier_text := "120"; Gui.storage_cost_text := "0.02";
     Gui.convenience_yield_text := "0.01";
     Gui.financing_rate_text := "0.0002";
     Gui.holding_period_text := "30";
     Gui.option_type := "call"; Gui.barrier_type := "up-and-out";
     Gui.cfd_position := "long" |}.

Definition empty_panel : Gui.ResultsDisplay :=
  {| Gui.price_label := ""; Gui.greeks_layout := [];
     Gui.futures_price_label := ""; Gui.cfd_price_label := "" |}.

(** An engine whose maturity is missing. *)
Definition no_maturity : engine :=
  AdvancedDerivativesPricing (Some 100) (Some 100) None (Some 0.05)
    (Some 0.2).

(** The futures price of [Examples.market] with carry 0.02 - 0.01, used as
    the spot of a second engine with maturity 2. *)
Definition rolled_market : engine :=
  AdvancedDerivativesPricing
    (Some (100 * exp ((0.05 + (0.02 - 0.01)) * 1)))
    (Some 100) (Some 2) (Some 0.05) (Some 0.2).

(** [Examples.market] with three times the spot. *)
Definition tripled_market : engine :=
  AdvancedDerivativesPricing (Some (3 * 100)) (Some 100) (Some 1)
    (Some 0.05) (Some 0.2).

End GuiExamples.

(** * Properties *)

Section GenericFacts.
Context {num : Type}.
Variables (fadd fsub fmul fdiv fpow : num -> num -> num).
Variable fpowi : num -> nat -> num.
Variable fneg : num -> num.
Variables (np_log np_sqrt np_exp norm_cdf : num -> num).
Variables (fle fge fgt : num -> num -> bool).
Variable flit : R -> num.
Variable of_nat : nat -> num.

Local Abbreviation price_barrier_option :=
  (Engine.price_barrier_option fadd fsub fmul fdiv fpow fpowi fneg
     np_log np_sqrt np_exp norm_cdf fle fge flit).
Local Abbreviation price_result :=
  (Engine.price_result fadd fsub fmul fdiv fpow fpowi fneg
     np_log np_sqrt np_exp norm_cdf fle fge flit).
Local Abbreviation calculate_greeks :=
  (Engine.calculate_greeks fadd fsub fmul fdiv fpow fpowi fneg
     np_log np_sqrt np_exp norm_cdf fle fge fgt flit).

Lemma deref_run (l : loc) (h : heap (num:=num)) e :
  h !! l = Some e -> deref l h = (h, Ok e).
Proof. intros Hl. unfold deref. now rewrite Hl. Qed.

Lemma lookup_fresh (h : heap (num:=num)) e :
  (h ++ [e])%list !! List.length h = Some e.
Proof. now apply list_lookup_middle. Qed.

Lemma lookup_old (h : heap (num:=num)) l e e' :
  h !! l = Some e -> (h ++ [e'])%list !! l = Some e.
Proof. intros Hl. now apply lookup_app_l_Some. Qed.

Lemma price_barrier_option_run self ot bt b (h : heap) e :
  h !! self = Some e ->
  price_barrier_option self ot bt b h = (h, price_result e ot bt b).
Proof.
  intros Hl. unfold Engine.price_result, Engine.price_barrier_option, bind, deref.
  rewrite Hl. cbn [lookup list_lookup].
  destruct (None_in _); [reflexivity|].
  destruct (S e), (K e), (T e), (r e), (sigma e), b; try reflexivity.
  cbn [as_float ret].
  repeat match goal with |- context [if ?c then _ else _] => destruct c end;
    reflexivity.
Qed.


Lemma None_in_false (vs : list (option num)) :
  None_in vs = false -> Forall (fun v => exists x, v = Some x) vs.
Proof.
  induction vs as [|[x|] vs IH]; cbn; intros Hn.
  - constructor.
  - constructor; [now exists x | now apply IH].
  - discriminate.
Qed.

Lemma binop_run f (a b : num) (h : heap (num:=num)) :
  binop f (Some a) (Some b) h = (h, Ok (f a b)).
Proof. reflexivity. Qed.

Lemma binop_None_l f (b : option num) (h : heap (num:=num)) :
  binop f None b h = (h, Raise TypeError).
Proof. reflexivity. Qed.

Lemma binop_None_r f (a : option num) (h : heap (num:=num)) :
  binop f a None h = (h, Raise TypeError).
Proof. destruct a; reflexivity. Qed.

Lemma perturbs_S (e : engine (num:=num)) v :
  perturbs e (AdvancedDerivativesPricing v (K e) (T e) (r e) (sigma e)).
Proof. left. reflexivity. Qed.

Lemma perturbs_sigma (e : engine (num:=num)) v :
  perturbs e (AdvancedDerivativesPricing (S e) (K e) (T e) (r e) v).
Proof. right. left. reflexivity. Qed.

Lemma perturbs_T (e : engine (num:=num)) v :
  perturbs e (AdvancedDerivativesPricing (S e) (K e) v (r e) (sigma e)).
Proof. right. right. left. reflexivity. Qed.

Lemma perturbs_r (e : engine (num:=num)) v :
  perturbs e (AdvancedDerivativesPricing (S e) (K e) (T e) v (sigma e)).
Proof. right. right. right. reflexivity. Qed.

(** One step of a method body run on a store in which [self] is [e]. *)
Ltac old_lookup Hl :=
  first [ exact Hl | apply lookup_old; old_lookup Hl ].

Ltac split_price c ot bt b :=
  first
    [ match goal with
      | Hp : Engine.price_result _ _ _ _ _ _ _ _ _ _ _ _ _ _ c ot bt b = _
        |- _ => rewrite Hp
      end
    | destruct (Engine.price_result _ _ _ _ _ _ _ _ _ _ _ _ _ _ c ot bt b)
        as [[?|]|?] eqn:? ].

Ltac run_step Hl :=
  unfold bind at 1;
  lazymatch goal with
  | |- context [deref ?l ?h] =>
      rewrite (deref_run l h _ ltac:(old_lookup Hl))
  | |- context [Engine.price_barrier_option _ _ _ _ _ _ _ _ _ _ _ _ _ _
                  (List.length ?h0) ?ot ?bt ?b (?h0 ++ [?c])%list] =>
      rewrite (price_barrier_option_run (List.length h0) ot bt b _ c
                 (lookup_fresh h0 c));
      split_price c ot bt b
  | |- context [Engine.price_barrier_option _ _ _ _ _ _ _ _ _ _ _ _ _ _
                  ?l ?ot ?bt ?b ?h] =>
      rewrite (price_barrier_option_run l ot bt b h _ ltac:(old_lookup Hl));
      lazymatch goal with
      | |- context [Engine.price_result _ _ _ _ _ _ _ _ _ _ _ _ _ _
                      ?e ot bt b] =>
          split_price e ot bt b
      end
  | |- context [binop ?f (Some ?a) (Some ?b) ?h] => rewrite (binop_run f a b h)
  | |- context [binop ?f None ?b ?h] => rewrite (binop_None_l f b h)
  | |- context [binop ?f ?a None ?h] => rewrite (binop_None_r f a h)
  | |- context [new ?a ?b ?c ?d ?e ?h] => unfold new at 1
  end;
  cbv beta iota;
  cbn [Engine.S Engine.K Engine.T Engine.r Engine.sigma].

Ltac frame_done :=
  cbv beta iota delta [raise ret];
  rewrite <- ?app_assoc;
  lazymatch goal with
  | |- exists fresh res, (?h, _) = ((?h ++ fresh)%list, res) /\ _ =>
      exists []; rewrite app_nil_r
  | _ => eexists
  end;
  eexists; split; [reflexivity|];
  split; [ repeat constructor;
           first [apply perturbs_S | apply perturbs_sigma
                 | apply perturbs_T | apply perturbs_r]
         | ].


Lemma calculate_greeks_frame self ot bt b (h : heap) e :
  h !! self = Some e ->
  exists fresh res,
    calculate_greeks self ot bt b h = ((h ++ fresh)%list, res)
    /\ Forall (perturbs e) fresh
    /\ (forall g, res = Ok g ->
        exists s t r0 sg p0 p1 p2 p3 p4 p5,
          let eps := flit 1e-5 in
          let c1 := set_S (Some (fadd s eps)) e in
          let c2 := set_S (Some (fsub s eps)) e in
          let c3 := set_sigma (Some (fadd sg eps)) e in
          let c4 :=
            set_T (Some (py_max fgt (fsub t (fdiv eps (flit 365))) eps)) e in
          let c5 := set_r (Some (fadd r0 eps)) e in
          S e = Some s /\ T e = Some t /\ r e = Some r0 /\ sigma e = Some sg
          /\ fresh = [c1; c2; c3; c4; c5]
          /\ price_result e ot bt b = Ok (Some p0)
          /\ price_result c1 ot bt b = Ok (Some p1)
          /\ price_result c2 ot bt b = Ok (Some p2)
          /\ price_result c3 ot bt b = Ok (Some p3)
          /\ price_result c4 ot bt b = Ok (Some p4)
          /\ price_result c5 ot bt b = Ok (Some p5)
          /\ g = [("Delta", fdiv (fsub p1 p0) eps);
                  ("Gamma",
                   fdiv (fadd (fsub p1 (fmul (flit 2) p0)) p2)
                     (fpowi eps 2));
                  ("Vega", fdiv (fsub p3 p0) eps);
                  ("Theta", fdiv (fsub p4 p0) (fdiv eps (flit 365)));
                  ("Rho", fdiv (fsub p5 p0) eps)]).
Proof.
  intros Hl. unfold Engine.calculate_greeks.
  run_step Hl.
  destruct e as [[s|] [k|] [t|] [r0|] [sg|]], b as [H|];
    cbn [None_in existsb orb S K T r sigma];
    try solve [frame_done; discriminate].
  repeat run_step Hl.
  all: try solve [frame_done; discriminate].
  frame_done. intros g [= <-].
  exists s, t, r0, sg. do 6 eexists. cbn zeta.
  repeat (split; [first [reflexivity | eassumption]|]). reflexivity.
Qed.

(** C8.  [calculate_greeks] writes to no existing object: the store it
    leaves is the one it was given followed by the instances it built, so
    the attributes of [self] (and of every other object) are what they were.
    Each instance it builds is a copy of [self] with one attribute changed,
    and when it returns, the five instances are the S-up, S-down, sigma-up,
    T-down and r-up copies, each perturbed price being the result of
    [price_barrier_option] on the corresponding copy. *)
Theorem calculate_greeks_preserves_engine self ot bt b (h : heap) e :
  h !! self = Some e ->
  exists fresh res,
    calculate_greeks self ot bt b h = ((h ++ fresh)%list, res)
    /\ (h ++ fresh)%list !! self = Some e
    /\ (forall l e', h !! l = Some e' -> (h ++ fresh)%list !! l = Some e')
    /\ Forall (perturbs e) fresh
    /\ (forall g, res = Ok g ->
        exists s t r0 sg p0 p1 p2 p3 p4 p5,
          let eps := flit 1e-5 in
          let c1 := set_S (Some (fadd s eps)) e in
          let c2 := set_S (Some (fsub s eps)) e in
          let c3 := set_sigma (Some (fadd sg eps)) e in
          let c4 :=
            set_T (Some (py_max fgt (fsub t (fdiv eps (flit 365))) eps)) e in
          let c5 := set_r (Some (fadd r0 eps)) e in
          S e = Some s /\ T e = Some t /\ r e = Some r0 /\ sigma e = Some sg
          /\ fresh = [c1; c2; c3; c4; c5]
          /\ price_result e ot bt b = Ok (Some p0)
          /\ price_result c1 ot bt b = Ok (Some p1)
          /\ price_result c2 ot bt b = Ok (Some p2)
          /\ price_result c3 ot bt b = Ok (Some p3)
          /\ price_result c4 ot bt b = Ok (Some p4)
          /\ price_result c5 ot bt b = Ok (Some p5)
          /\ g = [("Delta", fdiv (fsub p1 p0) eps);
                  ("Gamma",
                   fdiv (fadd (fsub p1 (fmul (flit 2) p0)) p2)
                     (fpowi eps 2));
                  ("Vega", fdiv (fsub p3 p0) eps);
                  ("Theta", fdiv (fsub p4 p0) (fdiv eps (flit 365)));
                  ("Rho", fdiv (fsub p5 p0) eps)]).
Proof.
  intros Hl.
  destruct (calculate_greeks_frame self ot bt b h e Hl)
    as (fresh & res & Hrun & Hfresh & Hok).
  exists fresh, res. split; [exact Hrun|].
  split; [now apply lookup_app_l_Some|].
  split; [intros l e' Hl'; now apply lookup_app_l_Some|].
  split; [exact Hfresh | exact Hok].
Qed.

Local Abbreviation price_futures :=
  (Engine.price_futures fadd fsub fmul np_exp).
Local Abbreviation price_cfd :=
  (Engine.price_cfd fsub fmul fdiv fneg np_exp flit).

Lemma None_in_true (vs : list (option num)) :
  In None vs -> None_in vs = true.
Proof.
  intros Hin. unfold None_in. apply existsb_exists.
  exists None. split; [exact Hin | reflexivity].
Qed.

Lemma price_futures_run self sc cy (h : heap) e s t r0 :
  h !! self = Some e -> S e = Some s -> T e = Some t -> r e = Some r0 ->
  price_futures self sc cy h
  = (h, Ok (fmul s (np_exp (fmul (fadd r0 (fsub sc cy)) t)))).
Proof.
  intros Hl HS HT Hr. unfold Engine.price_futures.
  unfold bind at 1. rewrite (deref_run _ _ _ Hl).
  rewrite HS, HT, Hr. reflexivity.
Qed.

Lemma price_cfd_run self position fr hp (h : heap) e s r0 :
  h !! self = Some e -> S e = Some s -> r e = Some r0 ->
  price_cfd self position fr hp h
  = (h,
     let daily_price_change :=
       fmul s (fsub (np_exp (fmul r0 (fdiv hp (flit 365)))) (flit 1)) in
     let financing_cost := fdiv (fmul (fmul s fr) hp) (flit 365) in
     if String.eqb position "long" then
       Ok (fsub daily_price_change financing_cost)
     else if String.eqb position "short" then
       Ok (fsub (fneg daily_price_change) financing_cost)
     else Raise (ValueError "Invalid position type")).
Proof.
  intros Hl HS Hr. unfold Engine.price_cfd.
  unfold bind at 1. rewrite (deref_run _ _ _ Hl).
  rewrite HS, Hr. cbn [None_in existsb orb]. cbv zeta.
  unfold bind, as_float, ret, raise.
  destruct (String.eqb position "long"); [reflexivity|].
  destruct (String.eqb position "short"); reflexivity.
Qed.

(** C4 (as amended).  A required parameter that is [None] makes each of the
    four public operations raise [ValueError] at its first statement: the
    store is the one it was called on, so no instance has been built and no
    attribute written.  The required parameters are the five attributes and
    the barrier for [price_barrier_option] and [calculate_greeks]; S, T and
    r for [price_futures]; S and r for [price_cfd].  This holds for every
    float arithmetic; the guard looks for [None] only. *)
Theorem missing_parameter_raises_ValueError
    self (h : heap) e ot bt barrier sc cy position fr hp :
  h !! self = Some e ->
  (In None [S e; K e; T e; r e; sigma e; barrier] ->
   price_barrier_option self ot bt barrier h
   = (h, Raise (ValueError "All parameters must be non-None"))
   /\ calculate_greeks self ot bt barrier h
      = (h, Raise (ValueError "All parameters must be non-None")))
  /\ (In None [S e; T e; r e] ->
      price_futures self sc cy h
      = (h, Raise (ValueError "S, T, and r must be non-None")))
  /\ (In None [S e; r e] ->
      price_cfd self position fr hp h
      = (h, Raise (ValueError "S and r must be non-None"))).
Proof.
  intros Hl. split; [|split]; intros Hn%None_in_true; [split|..].
  - unfold Engine.price_barrier_option, bind.
    rewrite (deref_run _ _ _ Hl), Hn. reflexivity.
  - unfold Engine.calculate_greeks. unfold bind at 1.
    rewrite (deref_run _ _ _ Hl), Hn. reflexivity.
  - unfold Engine.price_futures, bind.
    rewrite (deref_run _ _ _ Hl), Hn. reflexivity.
  - unfold Engine.price_cfd, bind.
    rewrite (deref_run _ _ _ Hl), Hn. reflexivity.
Qed.

(** C10.  [price_cfd] reads S and r only: two engines that agree on them,
    in any two stores, give the same outcome for the same arguments, and
    with S and r set a long or a short position is priced whatever K, T and
    sigma hold, [None] included. *)
Theorem price_cfd_depends_on_S_and_r
    l1 l2 (h1 h2 : heap) e1 e2 position fr hp :
  h1 !! l1 = Some e1 -> h2 !! l2 = Some e2 ->
  S e1 = S e2 -> r e1 = r e2 ->
  snd (price_cfd l1 position fr hp h1) = snd (price_cfd l2 position fr hp h2)
  /\ (forall s r0, S e1 = Some s -> r e1 = Some r0 ->
      position = "long" \/ position = "short" ->
      exists v, price_cfd l1 position fr hp h1 = (h1, Ok v)).
Proof.
  intros Hl1 Hl2 HS Hr. split.
  - destruct (S e1) as [s|] eqn:HS1, (r e1) as [r0|] eqn:Hr1.
    + rewrite (price_cfd_run l1 _ _ _ h1 e1 s r0),
        (price_cfd_run l2 _ _ _ h2 e2 s r0); auto.
    + unfold Engine.price_cfd, bind.
      rewrite (deref_run _ _ _ Hl1), (deref_run _ _ _ Hl2), HS1, Hr1, <- HS, <- Hr.
      reflexivity.
    + unfold Engine.price_cfd, bind.
      rewrite (deref_run _ _ _ Hl1), (deref_run _ _ _ Hl2), HS1, Hr1, <- HS, <- Hr.
      reflexivity.
    + unfold Engine.price_cfd, bind.
      rewrite (deref_run _ _ _ Hl1), (deref_run _ _ _ Hl2), HS1, Hr1, <- HS, <- Hr.
      reflexivity.
  - intros s r0 HS1 Hr1 Hpos.
    rewrite (price_cfd_run l1 _ _ _ h1 e1 s r0) by assumption.
    destruct Hpos as [-> | ->]; cbn; eauto.
Qed.

Lemma calculate_greeks_run self ot bt H (h : heap) s k t r0 sg
    p0 p1 p2 p3 p4 p5 :
  let eps := flit 1e-5 in
  let e := AdvancedDerivativesPricing
             (Some s) (Some k) (Some t) (Some r0) (Some sg) in
  let c1 := set_S (Some (fadd s eps)) e in
  let c2 := set_S (Some (fsub s eps)) e in
  let c3 := set_sigma (Some (fadd sg eps)) e in
  let c4 := set_T (Some (py_max fgt (fsub t (fdiv eps (flit 365))) eps)) e in
  let c5 := set_r (Some (fadd r0 eps)) e in
  h !! self = Some e ->
  price_result e ot bt (Some H) = Ok (Some p0) ->
  price_result c1 ot bt (Some H) = Ok (Some p1) ->
  price_result c2 ot bt (Some H) = Ok (Some p2) ->
  price_result c3 ot bt (Some H) = Ok (Some p3) ->
  price_result c4 ot bt (Some H) = Ok (Some p4) ->
  price_result c5 ot bt (Some H) = Ok (Some p5) ->
  calculate_greeks self ot bt (Some H) h
  = ((h ++ [c1; c2; c3; c4; c5])%list,
     Ok [("Delta", fdiv (fsub p1 p0) eps);
         ("Gamma",
          fdiv (fadd (fsub p1 (fmul (flit 2) p0)) p2) (fpowi eps 2));
         ("Vega", fdiv (fsub p3 p0) eps);
         ("Theta", fdiv (fsub p4 p0) (fdiv eps (flit 365)));
         ("Rho", fdiv (fsub p5 p0) eps)]).
Proof.
  cbv zeta. unfold set_S, set_T, set_r, set_sigma.
  cbn [Engine.S Engine.K Engine.T Engine.r Engine.sigma].
  intros Hl H0 H1 H2 H3 H4 H5. unfold Engine.calculate_greeks.
  run_step Hl. cbn [None_in existsb orb].
  repeat run_step Hl.
  unfold ret. rewrite <- !app_assoc. reflexivity.
Qed.

Local Abbreviation plot_payoff :=
  (Engine.plot_payoff fadd fsub fmul fdiv fpow fpowi fneg
     np_log np_sqrt np_exp norm_cdf fle fge flit of_nat).
Local Abbreviation linspace := (Engine.linspace fadd fsub fmul fdiv of_nat).

Lemma setattr_S_run (l : loc) v (h : heap (num:=num)) e :
  h !! l = Some e -> setattr_S l v h = (<[l := set_S v e]> h, Ok tt).
Proof. intros Hl. unfold setattr_S. now rewrite Hl. Qed.

Lemma set_S_idem v w (e : engine (num:=num)) :
  set_S v (set_S w e) = set_S v e.
Proof. reflexivity. Qed.

Lemma set_S_same (e : engine (num:=num)) : set_S (S e) e = e.
Proof. now destruct e. Qed.

(** The loop of [plot_payoff]: every iteration overwrites the spot of the
    one shared pricer, so the store ends with the last sample in it. *)
Lemma sweep_run pricer ot bt b e xs ys :
  Forall2 (fun x y => price_result (set_S (Some x) e) ot bt b = Ok y) xs ys ->
  forall (h : heap) s0,
  h !! pricer = Some (set_S s0 e) ->
  for_each xs
    (fun S => bind (setattr_S pricer (Some S))
                (fun _ => price_barrier_option pricer ot bt b)) h
  = (match last xs with
     | Some x => <[pricer := set_S (Some x) e]> h
     | None => h
     end, Ok ys).
Proof.
  induction 1 as [|x y xs ys Hxy Hall IH]; intros h s0 Hl.
  - reflexivity.
  - cbn [for_each]. unfold bind at 1. unfold bind at 1.
    rewrite (setattr_S_run _ _ _ _ Hl), set_S_idem.
    assert (Hl1 : <[pricer := set_S (Some x) e]> h !! pricer
                  = Some (set_S (Some x) e)).
    { apply list_lookup_insert_eq. eapply lookup_lt_Some, Hl. }
    rewrite (price_barrier_option_run _ _ _ _ _ _ Hl1), Hxy.
    unfold bind at 1. rewrite (IH _ _ Hl1). unfold ret.
    f_equal. destruct xs as [|x' xs'].
    + reflexivity.
    + rewrite last_cons_cons. destruct (last (x' :: xs')) eqn:Hlast.
      * apply list_insert_insert_eq.
      * now apply last_None in Hlast.
Qed.

Lemma last_linspace start stop n :
  last (linspace start stop (Datatypes.S n)) = Some (match n with 0%nat => start | _ => stop end).
Proof.
  destruct n as [|n]; [reflexivity|].
  unfold Engine.linspace. apply last_snoc.
Qed.

Lemma plot_payoff_run pricer ot bt b (h : heap) e k ys :
  h !! pricer = Some e -> K e = Some k ->
  let xs := linspace (fmul k (flit 0.5)) (fmul k (flit 1.5)) 100 in
  Forall2 (fun x y => price_result (set_S (Some x) e) ot bt b = Ok y) xs ys ->
  plot_payoff pricer ot bt b h
  = (<[pricer := set_S (Some (fmul k (flit 1.5))) e]> h, Ok (xs, ys)).
Proof.
  intros Hl HK xs Hall. unfold Engine.plot_payoff.
  unfold bind at 1. rewrite (deref_run _ _ _ Hl), HK.
  unfold bind at 1. rewrite binop_run.
  unfold bind at 1. rewrite (deref_run _ _ _ Hl), HK.
  unfold bind at 1. rewrite binop_run.
  unfold bind at 1. fold xs.
  rewrite (sweep_run pricer ot bt b e xs ys Hall h (S e))
    by (now rewrite set_S_same).
  unfold ret. subst xs. rewrite (last_linspace _ _ 99). reflexivity.
Qed.

End GenericFacts.

Section ExactFacts.
Variable N : R -> R.
Local Open Scope R_scope.

Lemma half_sq (x : R) : 0.5 * x ^ 2 = x ^ 2 / 2.
Proof. lra. Qed.

Lemma exact_price_barrier_option_run self ot bt b (h : heap) e :
  h !! self = Some e ->
  Exact.price_barrier_option N self ot bt b h
  = (h, Exact.price_result N e ot bt b).
Proof.
  intros Hl. unfold Exact.price_barrier_option, Exact.price_result.
  now apply price_barrier_option_run.
Qed.

Lemma price_result_spec ot bt (S K T r sigma H : R) :
  Exact.price_result N
    (AdvancedDerivativesPricing (Some S) (Some K) (Some T) (Some r) (Some sigma))
    (Spec.option_name ot) (Spec.barrier_name bt) (Some H)
  = Ok (Some (Spec.barrier_price N S K T r sigma H ot bt)).
Proof.
  unfold Exact.price_result, Engine.price_result, Engine.price_barrier_option,
    Engine._d1, Engine._d2, bind, deref, as_float, ret, Spec.barrier_price.
  cbn [lookup list_lookup None_in existsb orb
       Engine.S Engine.K Engine.T Engine.r Engine.sigma].
  rewrite !half_sq, <- !Ropp_mult_distr_l.
  destruct ot, bt;
    cbn [Spec.option_name Spec.barrier_name String.eqb Ascii.eqb Bool.eqb
         Spec.knock_dec Spec.degenerate Spec.active Spec.vanilla];
    unfold Exact.Rleb, Exact.Rgeb;
    try (destruct (Rle_dec S H)); try (destruct (Rge_dec S H));
    reflexivity.
Qed.

Lemma py_max_Rmax (a b : R) : py_max Exact.Rgtb a b = Rmax a b.
Proof.
  unfold py_max, Exact.Rgtb, Rmax.
  destruct (Rgt_dec b a), (Rle_dec a b); lra.
Qed.

Lemma T_floored_pos (T : R) : 0 < Spec.T_floored T.
Proof.
  unfold Spec.T_floored, Spec.eps.
  apply Rlt_le_trans with (2 := Rmax_r _ _). lra.
Qed.

(** C5.  On a valid configuration (market parameters S, K, T, sigma and the
    barrier positive, the spot above the step [eps], a valid option and
    barrier type), [calculate_greeks] returns the items Delta, Gamma, Vega,
    Theta, Rho in
    this order, each the finite difference of section 4.2 with step
    [eps = 1e-5] around the base price: Gamma reuses the up-shifted price of
    Delta, Theta divides by [eps/365] and prices at the maturity
    [max(T - eps/365, eps)], which is positive.  Every perturbed price is
    the barrier price at parameters that differ from the base in the one
    perturbed parameter, asked of a newly built instance. *)
Theorem calculate_greeks_finite_differences
    (h : heap) self ot bt (S K T r sigma H : R) :
  let e := AdvancedDerivativesPricing
             (Some S) (Some K) (Some T) (Some r) (Some sigma) in
  h !! self = Some e ->
  1e-5 < S -> 0 < K -> 0 < T -> 0 < sigma -> 0 < H ->
  Exact.calculate_greeks N self
    (Spec.option_name ot) (Spec.barrier_name bt) (Some H) h
  = ((h ++ [set_S (Some (S + Spec.eps)) e;
            set_S (Some (S - Spec.eps)) e;
            set_sigma (Some (sigma + Spec.eps)) e;
            set_T (Some (Spec.T_floored T)) e;
            set_r (Some (r + Spec.eps)) e])%list,
     Ok (Spec.greeks N ot bt S K T r sigma H))
  /\ map fst (Spec.greeks N ot bt S K T r sigma H)
     = ["Delta"; "Gamma"; "Vega"; "Theta"; "Rho"]%string
  /\ 0 < Spec.T_floored T.
Proof.
  intros e Hl _ _ _ _ _.
  split; [|split; [reflexivity | apply T_floored_pos]].
  unfold Exact.calculate_greeks.
  erewrite calculate_greeks_run; [| exact Hl | apply price_result_spec ..].
  rewrite py_max_Rmax. reflexivity.
Qed.

(** C1.  On valid market parameters [price_barrier_option] returns, for
    each of the eight (option type, barrier type) pairs, the value the
    table of section 4.1 gives: the degenerate value when the knock
    condition holds ([S <= H] for the down variants, [S >= H] for the up
    variants), the active-region formula of the row otherwise.  The store is
    left as it was. *)
Theorem price_barrier_option_dispatch
    (h : heap) self ot bt (S K T r sigma H : R) :
  h !! self = Some (AdvancedDerivativesPricing
                      (Some S) (Some K) (Some T) (Some r) (Some sigma)) ->
  0 < S -> 0 < K -> 0 < T -> 0 < sigma -> 0 < H ->
  Exact.price_barrier_option N self
    (Spec.option_name ot) (Spec.barrier_name bt) (Some H) h
  = (h, Ok (Some (Spec.barrier_price N S K T r sigma H ot bt)))
  /\ (Spec.knock S H bt ->
      Spec.barrier_price N S K T r sigma H ot bt
      = Spec.degenerate N S K T r sigma ot bt)
  /\ (~ Spec.knock S H bt ->
      Spec.barrier_price N S K T r sigma H ot bt
      = Spec.active N S K T r sigma H ot bt).
Proof.
  intros Hl _ _ _ _ _. split; [|split].
  - rewrite (exact_price_barrier_option_run _ _ _ _ _ _ Hl).
    f_equal. apply price_result_spec.
  - intros Hk. unfold Spec.barrier_price.
    destruct (Spec.knock_dec S H bt); [reflexivity | contradiction].
  - intros Hk. unfold Spec.barrier_price.
    destruct (Spec.knock_dec S H bt); [contradiction | reflexivity].
Qed.

(** C6.  [price_futures] returns [S * exp((r + storage_cost -
    convenience_yield) * T)]; with both optional arguments at their default
    it is [S * exp(r * T)], and for S=100, r=0.05, storage cost 0.02,
    convenience yield 0.01, T=1 it is [100 * exp(0.06)]. *)
Theorem price_futures_cost_of_carry
    (h : heap) self e (S T r : R) :
  h !! self = Some e ->
  Engine.S e = Some S -> Engine.T e = Some T -> Engine.r e = Some r ->
  (forall storage_cost convenience_yield,
     Exact.price_futures self storage_cost convenience_yield h
     = (h, Ok (S * exp ((r + storage_cost - convenience_yield) * T))))
  /\ Exact.price_futures_default self h = (h, Ok (S * exp (r * T)))
  /\ (S = 100 -> r = 0.05 -> T = 1 ->
      Exact.price_futures self 0.02 0.01 h = (h, Ok (100 * exp 0.06))).
Proof.
  intros Hl HS HT Hr.
  assert (Hrun : forall sc cy,
             Exact.price_futures self sc cy h
             = (h, Ok (S * exp ((r + sc - cy) * T)))).
  { intros sc cy. unfold Exact.price_futures.
    rewrite (price_futures_run _ _ _ _ _ _ _ _ _ _ _ _ Hl HS HT Hr).
    do 4 f_equal. lra. }
  split; [exact Hrun | split].
  - unfold Exact.price_futures_default, Engine.price_futures_default.
    fold Exact.price_futures. rewrite Hrun. do 4 f_equal. lra.
  - intros -> -> ->. rewrite Hrun. do 4 f_equal. lra.
Qed.

(** C7.  With S and r set, the long and the short CFD results add up to
    minus twice the financing cost, [-2 * S * financing_rate *
    holding_period / 365], and a position other than 'long' and 'short'
    raises [ValueError]. *)
Theorem price_cfd_long_plus_short
    (h : heap) self e (S r financing_rate holding_period : R) :
  h !! self = Some e ->
  Engine.S e = Some S -> Engine.r e = Some r ->
  (exists long short,
     Exact.price_cfd self "long" financing_rate holding_period h
     = (h, Ok long)
     /\ Exact.price_cfd self "short" financing_rate holding_period h
        = (h, Ok short)
     /\ long + short = -2 * S * financing_rate * holding_period / 365)
  /\ (forall position,
        position <> "long"%string -> position <> "short"%string ->
        Exact.price_cfd self position financing_rate holding_period h
        = (h, Raise (ValueError "Invalid position type"))).
Proof.
  intros Hl HS Hr. split.
  - do 2 eexists. unfold Exact.price_cfd.
    rewrite !(price_cfd_run _ _ _ _ _ _ _ _ _ _ _ _ _ _ Hl HS Hr).
    cbn [String.eqb Ascii.eqb Bool.eqb]. cbv zeta.
    split; [reflexivity | split; [reflexivity | lra]].
  - intros position Hlong Hshort. unfold Exact.price_cfd.
    rewrite (price_cfd_run _ _ _ _ _ _ _ _ _ _ _ _ _ _ Hl HS Hr).
    apply String.eqb_neq in Hlong, Hshort. now rewrite Hlong, Hshort.
Qed.


Lemma linspace_samples (K : R) :
  Engine.linspace Rplus Rminus Rmult Rdiv INR (K * 0.5) (K * 1.5) 100
  = Spec.samples K.
Proof.
  unfold Engine.linspace, Spec.samples.
  change (100 - 1)%nat with 99%nat.
  change (seq 0 100) with (seq 0 99 ++ [99%nat])%list.
  rewrite map_app. f_equal.
  - apply map_ext. intros i. unfold Spec.sample.
    replace (INR 99) with 99 by (rewrite INR_IZR_INZ; reflexivity). field.
  - cbn [map]. unfold Spec.sample.
    replace (INR 99) with 99 by (rewrite INR_IZR_INZ; reflexivity).
    f_equal. field.
Qed.

Lemma Forall2_map_r {A B} (P : A -> B -> Prop) (f : A -> B) (xs : list A) :
  (forall x, P x (f x)) -> Forall2 P xs (map f xs).
Proof. intros HP. induction xs; constructor; auto. Qed.

(** C9.  For a pricer whose K, T, sigma and barrier are positive, the payoff
    curve of [plot_payoff] is made of the 100 evenly spaced spot samples
    from [0.5 K] to [1.5 K] and, in the same order, the value
    [price_barrier_option] returns once the sample has been written into
    the spot of the pricer, the other attributes being those the pricer
    had.  The pricer is shared: when [plot_payoff] returns its S is the
    last sample [1.5 K], whatever it was before. *)
Theorem plot_payoff_sweep
    (h : heap) pricer e ot bt (K T r sigma H : R) :
  h !! pricer = Some e ->
  Engine.K e = Some K -> Engine.T e = Some T -> Engine.r e = Some r ->
  Engine.sigma e = Some sigma ->
  0 < K -> 0 < T -> 0 < sigma -> 0 < H ->
  let at_sample x := <[pricer := set_S (Some x) e]> h in
  exists ys,
    Exact.plot_payoff N pricer
      (Spec.option_name ot) (Spec.barrier_name bt) (Some H) h
    = (at_sample (1.5 * K), Ok (Spec.samples K, ys))
    /\ List.length (Spec.samples K) = 100%nat
    /\ head (Spec.samples K) = Some (0.5 * K)
    /\ last (Spec.samples K) = Some (1.5 * K)
    /\ Forall2
         (fun x y =>
            Exact.price_barrier_option N pricer
              (Spec.option_name ot) (Spec.barrier_name bt) (Some H)
              (at_sample x)
            = (at_sample x, Ok y))
         (Spec.samples K) ys
    /\ at_sample (1.5 * K) !! pricer = Some (set_S (Some (1.5 * K)) e).
Proof.
  intros Hl HK HT Hr Hsg _ _ _ _ at_sample.
  assert (Hlt : (pricer < List.length h)%nat) by (eapply lookup_lt_Some, Hl).
  assert (Hat : forall x, at_sample x !! pricer = Some (set_S (Some x) e)).
  { intros x. now apply list_lookup_insert_eq. }
  assert (Hprice : forall x,
             Exact.price_result N (set_S (Some x) e)
               (Spec.option_name ot) (Spec.barrier_name bt) (Some H)
             = Ok (Some (Spec.barrier_price N x K T r sigma H ot bt))).
  { intros x. unfold set_S. rewrite HK, HT, Hr, Hsg.
    apply price_result_spec. }
  exists (map (fun x => Some (Spec.barrier_price N x K T r sigma H ot bt))
            (Spec.samples K)).
  repeat split.
  - unfold Exact.plot_payoff.
    erewrite plot_payoff_run; [| exact Hl | exact HK |].
    + rewrite linspace_samples. unfold at_sample.
      replace (K * 1.5) with (1.5 * K) by lra. reflexivity.
    + rewrite linspace_samples. apply Forall2_map_r. exact Hprice.
  - cbn [Spec.samples seq map head]. unfold Spec.sample. f_equal.
    cbn [INR]. lra.
  - unfold Spec.samples.
    change (seq 0 100) with (seq 0 99 ++ [99%nat])%list.
    rewrite map_app. cbn [map]. rewrite last_snoc. f_equal.
    unfold Spec.sample.
    replace (INR 99) with 99 by (rewrite INR_IZR_INZ; reflexivity). field.
  - apply Forall2_map_r. intros x.
    rewrite (exact_price_barrier_option_run _ _ _ _ _ _ (Hat x)).
    f_equal. apply Hprice.
  - apply Hat.
Qed.


(** In the knocked region the knock-in and the knock-out price add up to the
    vanilla price, one being the vanilla price and the other zero. *)
Lemma knocked_parity ot (S K T r sigma H : R) :
  (S <= H ->
   Spec.barrier_price N S K T r sigma H ot Spec.DownAndIn
   + Spec.barrier_price N S K T r sigma H ot Spec.DownAndOut
   = Spec.vanilla N S K T r sigma ot)
  /\ (S >= H ->
      Spec.barrier_price N S K T r sigma H ot Spec.UpAndIn
      + Spec.barrier_price N S K T r sigma H ot Spec.UpAndOut
      = Spec.vanilla N S K T r sigma ot).
Proof.
  unfold Spec.barrier_price. cbn [Spec.knock_dec Spec.degenerate].
  split; intros Hk.
  - destruct (Rle_dec S H); [lra | contradiction].
  - destruct (Rge_dec S H); [lra | contradiction].
Qed.

(** In the active region the two formulas of a pair do not add up to the
    vanilla price: what they leave is the term below. *)
Lemma active_parity_residual (S K T r sigma H : R) :
  let A := S * Rpower (H / S) (2 * Spec.lambda r sigma) in
  let x1 := Spec.x1 S T r sigma H in
  let y := Spec.y S K T r sigma H in
  (H < S ->
   Spec.barrier_price N S K T r sigma H Spec.Call Spec.DownAndIn
   + Spec.barrier_price N S K T r sigma H Spec.Call Spec.DownAndOut
   = Spec.vanilla N S K T r sigma Spec.Call + A * N (- y)
   /\ Spec.barrier_price N S K T r sigma H Spec.Put Spec.DownAndIn
      + Spec.barrier_price N S K T r sigma H Spec.Put Spec.DownAndOut
      = Spec.vanilla N S K T r sigma Spec.Put
        + A * (2 * N (- y) - N (- x1)))
  /\ (S < H ->
      Spec.barrier_price N S K T r sigma H Spec.Call Spec.UpAndIn
      + Spec.barrier_price N S K T r sigma H Spec.Call Spec.UpAndOut
      = Spec.vanilla N S K T r sigma Spec.Call + A * N x1
      /\ Spec.barrier_price N S K T r sigma H Spec.Put Spec.UpAndIn
         + Spec.barrier_price N S K T r sigma H Spec.Put Spec.UpAndOut
         = Spec.vanilla N S K T r sigma Spec.Put
           + A * (2 * N x1 - N y)).
Proof.
  cbv zeta. unfold Spec.barrier_price.
  cbn [Spec.knock_dec Spec.active Spec.vanilla].
  split; intros Hk.
  - destruct (Rle_dec S H); [lra|]. split; lra.
  - destruct (Rge_dec S H); [lra|]. split; lra.
Qed.

(** C2, at S=100, K=64, T=1, r=0.02, sigma=0.2 and a barrier at 80 (so
    that S is above the barrier): the down-and-in call and the down-and-out
    call are both priced, and their sum exceeds the vanilla call by
    [100 * N 0], which is 50 for the normal distribution function. *)
Theorem down_call_parity_violated :
  exists p_in p_out,
    Exact.price_barrier_option N 0%nat "call" "down-and-in" (Some 80)
      [Examples.parity_market]
    = ([Examples.parity_market], Ok (Some p_in))
    /\ Exact.price_barrier_option N 0%nat "call" "down-and-out" (Some 80)
         [Examples.parity_market]
       = ([Examples.parity_market], Ok (Some p_out))
    /\ p_in + p_out
       = Spec.vanilla N 100 64 1 0.02 0.2 Spec.Call + 100 * N 0.
Proof.
  do 2 eexists.
  rewrite !(exact_price_barrier_option_run 0%nat _ _ _
              [Examples.parity_market] Examples.parity_market eq_refl).
  unfold Examples.parity_market.
  rewrite (price_result_spec Spec.Call Spec.DownAndIn),
    (price_result_spec Spec.Call Spec.DownAndOut).
  split; [reflexivity | split; [reflexivity|]].
  destruct (active_parity_residual 100 64 1 0.02 0.2 80) as [Hdown _].
  destruct Hdown as [-> _]; [lra|].
  assert (Hlambda : Spec.lambda 0.02 0.2 = 0) by (unfold Spec.lambda; lra).
  assert (Hy : Spec.y 100 64 1 0.02 0.2 80 = 0).
  { unfold Spec.y. rewrite Hlambda.
    replace (80 ^ 2 / (100 * 64)) with 1 by lra.
    rewrite ln_1. unfold Rdiv. ring. }
  rewrite Hy, Hlambda, Rmult_0_r, Ropp_0, Rpower_O by lra. ring.
Qed.

(** C3, the barrier type.  With every parameter set and the option type
    'call' or 'put', a barrier type that is none of the four names raises
    nothing: [price_barrier_option] returns [None]. *)
Theorem unknown_barrier_type_returns_None
    (h : heap) self ot (barrier_type : string) (S K T r sigma H : R) :
  h !! self = Some (AdvancedDerivativesPricing
                      (Some S) (Some K) (Some T) (Some r) (Some sigma)) ->
  barrier_type <> "up-and-in"%string ->
  barrier_type <> "up-and-out"%string ->
  barrier_type <> "down-and-in"%string ->
  barrier_type <> "down-and-out"%string ->
  Exact.price_barrier_option N self (Spec.option_name ot) barrier_type
    (Some H) h
  = (h, Ok None).
Proof.
  intros Hl H1 H2 H3 H4.
  rewrite (exact_price_barrier_option_run _ _ _ _ _ _ Hl).
  f_equal. apply String.eqb_neq in H1, H2, H3, H4.
  unfold Exact.price_result, Engine.price_result, Engine.price_barrier_option, bind, deref,
    as_float, ret.
  cbn [lookup list_lookup None_in existsb orb
       Engine.S Engine.K Engine.T Engine.r Engine.sigma].
  cbv zeta. rewrite H1, H2, H3, H4.
  destruct ot; reflexivity.
Qed.

(** The part of C3 that holds: with every parameter set, an option type
    other than 'call' and 'put' makes both [price_barrier_option] and
    [calculate_greeks] raise [ValueError]. *)
Lemma unknown_option_type_raises
    (h : heap) self (option_type barrier_type : string)
    (S K T r sigma H : R) :
  h !! self = Some (AdvancedDerivativesPricing
                      (Some S) (Some K) (Some T) (Some r) (Some sigma)) ->
  option_type <> "call"%string -> option_type <> "put"%string ->
  Exact.price_barrier_option N self option_type barrier_type (Some H) h
  = (h, Raise (ValueError ("Invalid option type: " ++ option_type)))
  /\ Exact.calculate_greeks N self option_type barrier_type (Some H) h
     = (h, Raise (ValueError ("Invalid option type: " ++ option_type))).
Proof.
  intros Hl H1 H2. apply String.eqb_neq in H1, H2.
  assert (Hres :
    Exact.price_result N
      (AdvancedDerivativesPricing
         (Some S) (Some K) (Some T) (Some r) (Some sigma))
      option_type barrier_type (Some H)
    = Raise (ValueError ("Invalid option type: " ++ option_type))).
  { unfold Exact.price_result, Engine.price_result,
      Engine.price_barrier_option, bind, deref, as_float, ret.
    cbn [lookup list_lookup None_in existsb orb
         Engine.S Engine.K Engine.T Engine.r Engine.sigma].
    cbv zeta. rewrite H1, H2. reflexivity. }
  split.
  - rewrite (exact_price_barrier_option_run _ _ _ _ _ _ Hl).
    f_equal. exact Hres.
  - unfold Exact.calculate_greeks, Engine.calculate_greeks.
    unfold bind at 1. rewrite (deref_run _ _ _ Hl).
    cbn [None_in existsb orb
         Engine.S Engine.K Engine.T Engine.r Engine.sigma].
    unfold bind at 1. fold (Exact.price_barrier_option N).
    rewrite (exact_price_barrier_option_run _ _ _ _ _ _ Hl), Hres.
    reflexivity.
Qed.

End ExactFacts.

(** ** Non-finite inputs *)

(** C4, as stated, fails: a spot that is NaN is a present parameter, the
    guard of [price_futures] lets it through and NaN is returned. *)
Lemma nan_spot_is_priced :
  IEEE.isfinite IEEE.NaN = false
  /\ S Examples.nan_spot = Some IEEE.NaN
  /\ IEEE.price_futures 0%nat (IEEE.Fin 0.02) (IEEE.Fin 0.01)
       [Examples.nan_spot]
     = ([Examples.nan_spot], Ok IEEE.NaN).
Proof. repeat split. Qed.

(** The same with an infinite maturity: the futures price is infinite. *)
Lemma infinite_maturity_is_priced :
  let e := AdvancedDerivativesPricing (Some (IEEE.Fin 100))
             (Some (IEEE.Fin 100)) (Some IEEE.PInf) (Some (IEEE.Fin 0.05))
             (Some (IEEE.Fin 0.2)) in
  IEEE.price_futures 0%nat (IEEE.Fin 0) (IEEE.Fin 0) [e]
  = ([e], Ok IEEE.PInf).
Proof.
  cbv zeta. unfold IEEE.price_futures, Engine.price_futures, bind, deref,
    as_float, ret.
  cbn [lookup list_lookup None_in existsb orb S T r
       IEEE.xsub IEEE.xadd IEEE.xneg IEEE.xmul IEEE.xexp].
  unfold IEEE.inf_times.
  destruct (Rlt_dec 0 (0.05 + (0 + - 0))) as [_|Hn]; [|exfalso; lra].
  cbn [IEEE.xexp IEEE.xmul]. unfold IEEE.inf_times.
  destruct (Rlt_dec 0 100) as [_|Hn]; [reflexivity | exfalso; lra].
Qed.

(** ** The theorems at concrete inputs *)

Lemma price_barrier_option_dispatch_witness :
  Exact.price_barrier_option Examples.logistic 0%nat
    "call" "up-and-out" (Some 120%R) [Examples.market]
  = ([Examples.market],
     Ok (Some (Spec.barrier_price Examples.logistic
                 100 100 1 0.05 0.2 120 Spec.Call Spec.UpAndOut))).
Proof.
  apply (price_barrier_option_dispatch Examples.logistic [Examples.market]
           0%nat Spec.Call Spec.UpAndOut 100 100 1 0.05 0.2 120);
    [reflexivity | lra ..].
Defined.

Lemma unknown_barrier_type_witness :
  Exact.price_barrier_option Examples.logistic 0%nat
    "call" "sideways" (Some 120%R) [Examples.market]
  = ([Examples.market], Ok None).
Proof.
  apply (unknown_barrier_type_returns_None Examples.logistic
           [Examples.market] 0%nat Spec.Call "sideways"
           100 100 1 0.05 0.2 120);
    [reflexivity | discriminate ..].
Defined.

Lemma missing_parameter_witness :
  Exact.price_barrier_option Examples.logistic 0%nat
    "call" "up-and-out" (Some 120%R) [Examples.no_strike]
  = ([Examples.no_strike],
     Raise (ValueError "All parameters must be non-None")).
Proof.
  refine (proj1 (proj1
    (missing_parameter_raises_ValueError
       Rplus Rminus Rmult Rdiv Rpower pow Ropp ln sqrt exp Examples.logistic
       Exact.Rleb Exact.Rgeb Exact.Rgtb (fun x => x)
       0%nat [Examples.no_strike] Examples.no_strike
       "call" "up-and-out" (Some 120%R) 0%R 0%R "long" 0%R 0%R eq_refl) _)).
  right. left. reflexivity.
Defined.

Lemma calculate_greeks_finite_differences_witness :
  Exact.calculate_greeks Examples.logistic 0%nat
    "call" "up-and-out" (Some 120%R) [Examples.market]
  = ([Examples.market;
      set_S (Some (100 + Spec.eps)%R) Examples.market;
      set_S (Some (100 - Spec.eps)%R) Examples.market;
      set_sigma (Some (0.2 + Spec.eps)%R) Examples.market;
      set_T (Some (Spec.T_floored 1)) Examples.market;
      set_r (Some (0.05 + Spec.eps)%R) Examples.market],
     Ok (Spec.greeks Examples.logistic Spec.Call Spec.UpAndOut
           100 100 1 0.05 0.2 120)).
Proof.
  apply (calculate_greeks_finite_differences Examples.logistic
           [Examples.market] 0%nat Spec.Call Spec.UpAndOut
           100 100 1 0.05 0.2 120);
    [reflexivity | lra ..].
Defined.

Lemma price_futures_cost_of_carry_witness :
  Exact.price_futures 0%nat 0.02 0.01 [Examples.market]
  = ([Examples.market], Ok (100 * exp 0.06)%R).
Proof.
  apply (price_futures_cost_of_carry [Examples.market] 0%nat
           Examples.market 100 1 0.05);
    reflexivity.
Defined.

Lemma price_cfd_long_plus_short_witness :
  exists long short,
    Exact.price_cfd 0%nat "long" 0.0002 30 [Examples.spot_and_rate]
    = ([Examples.spot_and_rate], Ok long)
    /\ Exact.price_cfd 0%nat "short" 0.0002 30 [Examples.spot_and_rate]
       = ([Examples.spot_and_rate], Ok short)
    /\ (long + short = -2 * 100 * 0.0002 * 30 / 365)%R.
Proof.
  apply (price_cfd_long_plus_short [Examples.spot_and_rate] 0%nat
           Examples.spot_and_rate 100 0.05 0.0002 30);
    reflexivity.
Defined.

Lemma calculate_greeks_preserves_engine_witness :
  exists fresh res,
    Exact.calculate_greeks Examples.logistic 0%nat
      "call" "up-and-out" (Some 120%R) [Examples.market]
    = ((Examples.market :: fresh)%list, res)
    /\ (Examples.market :: fresh) !! 0%nat = Some Examples.market.
Proof.
  destruct (calculate_greeks_preserves_engine
              Rplus Rminus Rmult Rdiv Rpower pow Ropp ln sqrt exp
              Examples.logistic Exact.Rleb Exact.Rgeb Exact.Rgtb
              (fun x => x) 0%nat "call" "up-and-out" (Some 120%R)
              [Examples.market] Examples.market eq_refl)
    as (fresh & res & Hrun & Hself & _).
  exists fresh, res. split; [exact Hrun | exact Hself].
Defined.

Lemma plot_payoff_sweep_witness :
  exists ys,
    Exact.plot_payoff Examples.logistic 0%nat
      "call" "up-and-out" (Some 120%R) [Examples.market]
    = ([set_S (Some (1.5 * 100)%R) Examples.market],
       Ok (Spec.samples 100, ys)).
Proof.
  destruct (plot_payoff_sweep Examples.logistic [Examples.market] 0%nat
              Examples.market Spec.Call Spec.UpAndOut 100 1 0.05 0.2 120
              eq_refl eq_refl eq_refl eq_refl eq_refl
              ltac:(lra) ltac:(lra) ltac:(lra) ltac:(lra))
    as (ys & Hrun & _).
  exists ys. exact Hrun.
Defined.

Lemma price_cfd_depends_on_S_and_r_witness :
  snd (Exact.price_cfd 0%nat "long" 0.0002 30 [Examples.market])
  = snd (Exact.price_cfd 0%nat "long" 0.0002 30 [Examples.spot_and_rate])
  /\ exists v,
       Exact.price_cfd 0%nat "long" 0.0002 30 [Examples.spot_and_rate]
       = ([Examples.spot_and_rate], Ok v).
Proof.
  split.
  - exact (proj1 (price_cfd_depends_on_S_and_r
                    Rminus Rmult Rdiv Ropp exp (fun x => x)
                    0%nat 0%nat [Examples.market] [Examples.spot_and_rate]
                    Examples.market Examples.spot_and_rate
                    "long" 0.0002%R 30%R eq_refl eq_refl eq_refl eq_refl)).
  - exact (proj2 (price_cfd_depends_on_S_and_r
                    Rminus Rmult Rdiv Ropp exp (fun x => x)
                    0%nat 0%nat [Examples.spot_and_rate] [Examples.market]
                    Examples.spot_and_rate Examples.market
                    "long" 0.0002%R 30%R eq_refl eq_refl eq_refl eq_refl)
             100%R 0.05%R eq_refl eq_refl (or_introl eq_refl)).
Defined.

(** * Further properties of the engine *)

Section EngineExtras.
Context {num : Type}.
Variables (fadd fsub fmul fdiv fpow : num -> num -> num).
Variable fpowi : num -> nat -> num.
Variable fneg : num -> num.
Variables (np_log np_sqrt np_exp norm_cdf : num -> num).
Variables (fle fge fgt : num -> num -> bool).
Variable flit : R -> num.
Variable of_nat : nat -> num.

Local Abbreviation price_barrier_option :=
  (Engine.price_barrier_option fadd fsub fmul fdiv fpow fpowi fneg
     np_log np_sqrt np_exp norm_cdf fle fge flit).
Local Abbreviation price_result :=
  (Engine.price_result fadd fsub fmul fdiv fpow fpowi fneg
     np_log np_sqrt np_exp norm_cdf fle fge flit).
Local Abbreviation calculate_greeks :=
  (Engine.calculate_greeks fadd fsub fmul fdiv fpow fpowi fneg
     np_log np_sqrt np_exp norm_cdf fle fge fgt flit).
Local Abbreviation price_futures :=
  (Engine.price_futures fadd fsub fmul np_exp).
Local Abbreviation price_cfd :=
  (Engine.price_cfd fsub fmul fdiv fneg np_exp flit).
Local Abbreviation plot_payoff :=
  (Engine.plot_payoff fadd fsub fmul fdiv fpow fpowi fneg
     np_log np_sqrt np_exp norm_cdf fle fge flit of_nat).
Local Abbreviation linspace := (Engine.linspace fadd fsub fmul fdiv of_nat).

(** Finding the object behind an address in a store that has grown. *)
Ltac find_lookup :=
  first [ eassumption
        | apply lookup_fresh
        | apply lookup_old; find_lookup ].

Ltac use_price c ot bt b :=
  first
    [ match goal with
      | Hp : Engine.price_result _ _ _ _ _ _ _ _ _ _ _ _ _ _ c ot bt b = _
        |- _ => rewrite Hp
      end
    | destruct (Engine.price_result _ _ _ _ _ _ _ _ _ _ _ _ _ _ c ot bt b)
        as [[?|]|?] eqn:? ].

(** One statement of a method body. *)
Ltac exec_step :=
  unfold bind at 1;
  lazymatch goal with
  | |- context [deref ?l ?h] =>
      rewrite (deref_run l h _ ltac:(find_lookup))
  | |- context [Engine.price_barrier_option ?a1 ?a2 ?a3 ?a4 ?a5 ?a6 ?a7 ?a8
                  ?a9 ?a10 ?a11 ?a12 ?a13 ?a14 ?l ?ot ?bt ?b ?h] =>
      erewrite (price_barrier_option_run a1 a2 a3 a4 a5 a6 a7 a8 a9 a10 a11
                  a12 a13 a14 l ot bt b h _ ltac:(find_lookup));
      lazymatch goal with
      | |- context [Engine.price_result _ _ _ _ _ _ _ _ _ _ _ _ _ _
                      ?e ot bt b] =>
          use_price e ot bt b
      end
  | |- context [binop ?f (Some ?a) (Some ?b) ?h] => rewrite (binop_run f a b h)
  | |- context [binop ?f None ?b ?h] => rewrite (binop_None_l f b h)
  | |- context [binop ?f ?a None ?h] => rewrite (binop_None_r f a h)
  | |- context [new ?a ?b ?c ?d ?e ?h] => unfold new at 1
  end;
  cbv beta iota;
  cbn [Engine.S Engine.K Engine.T Engine.r Engine.sigma
       None_in existsb orb].

Lemma price_futures_fst self sc cy (h : heap) :
  fst (price_futures self sc cy h) = h.
Proof.
  unfold Engine.price_futures, bind, deref.
  destruct (h !! self) as [e|]; [|reflexivity].
  destruct (None_in _); [reflexivity|].
  destruct (S e), (r e), (T e); reflexivity.
Qed.

Lemma price_cfd_fst self position fr hp (h : heap) :
  fst (price_cfd self position fr hp h) = h.
Proof.
  unfold Engine.price_cfd, bind, deref.
  destruct (h !! self) as [e|]; [|reflexivity].
  destruct (None_in _); [reflexivity|].
  destruct (S e), (r e); cbn [as_float]; unfold ret, raise;
    try reflexivity.
  destruct (String.eqb position "long"); [reflexivity|].
  destruct (String.eqb position "short"); reflexivity.
Qed.

Lemma price_barrier_option_fst self ot bt barrier (h : heap) :
  fst (price_barrier_option self ot bt barrier h) = h.
Proof.
  destruct (h !! self) as [e|] eqn:Hl.
  - now rewrite (price_barrier_option_run _ _ _ _ _ _ _ _ _ _ _ _ _ _
                   _ _ _ _ _ _ Hl).
  - unfold Engine.price_barrier_option, bind, deref. now rewrite Hl.
Qed.

(** X1.  The three pricing methods only read: whatever the arguments and
    whatever the outcome, an exception included, the store after the call
    is the store before it. *)
Theorem pricing_leaves_store_unchanged
    self ot bt barrier sc cy position fr hp (h : heap) :
  fst (price_barrier_option self ot bt barrier h) = h
  /\ fst (price_futures self sc cy h) = h
  /\ fst (price_cfd self position fr hp h) = h.
Proof.
  split; [apply price_barrier_option_fst|].
  split; [apply price_futures_fst | apply price_cfd_fst].
Qed.

(** X2.  What [price_barrier_option], [calculate_greeks] and
    [price_futures] return or raise is decided by the attributes of [self]
    and by the arguments: the same object at another address, in a store
    with other contents, gives the same outcome. *)
Theorem outcome_depends_on_attributes_only
    l1 l2 (h1 h2 : heap) e ot bt barrier sc cy :
  h1 !! l1 = Some e -> h2 !! l2 = Some e ->
  snd (price_barrier_option l1 ot bt barrier h1)
  = snd (price_barrier_option l2 ot bt barrier h2)
  /\ snd (calculate_greeks l1 ot bt barrier h1)
     = snd (calculate_greeks l2 ot bt barrier h2)
  /\ snd (price_futures l1 sc cy h1) = snd (price_futures l2 sc cy h2).
Proof.
  intros Hl1 Hl2. split; [|split].
  - now rewrite
      (price_barrier_option_run _ _ _ _ _ _ _ _ _ _ _ _ _ _ _ _ _ _ _ _ Hl1),
      (price_barrier_option_run _ _ _ _ _ _ _ _ _ _ _ _ _ _ _ _ _ _ _ _ Hl2).
  - unfold Engine.calculate_greeks.
    destruct e as [[s|] [k|] [t|] [r0|] [sg|]], barrier as [H|];
      repeat exec_step; reflexivity.
  - unfold Engine.price_futures, bind.
    rewrite (deref_run _ _ _ Hl1), (deref_run _ _ _ Hl2).
    destruct (None_in _); [reflexivity|].
    destruct (S e), (r e), (T e); reflexivity.
Qed.

(** With an unpriced barrier ([None] from [price_barrier_option]),
    [calculate_greeks] stops at the first difference of prices. *)
Lemma calculate_greeks_None_price self ot bt H (h : heap) s k t r0 sg :
  let e := AdvancedDerivativesPricing
             (Some s) (Some k) (Some t) (Some r0) (Some sg) in
  let c1 := set_S (Some (fadd s (flit 1e-5))) e in
  h !! self = Some e ->
  price_result e ot bt (Some H) = Ok None ->
  price_result c1 ot bt (Some H) = Ok None ->
  calculate_greeks self ot bt (Some H) h
  = ((h ++ [c1])%list, Raise TypeError).
Proof.
  cbv zeta. unfold set_S. cbn [Engine.S Engine.K Engine.T Engine.r Engine.sigma].
  intros Hl H0 H1. unfold Engine.calculate_greeks.
  repeat exec_step. reflexivity.
Qed.

Lemma linspace_cons start stop n :
  exists x xs, linspace start stop (Datatypes.S (Datatypes.S n)) = x :: xs.
Proof.
  unfold Engine.linspace.
  replace (Datatypes.S (Datatypes.S n) - 1)%nat with (Datatypes.S n)
    by (destruct n; reflexivity).
  cbn [seq map app]. eauto.
Qed.

Lemma bind_same_run {A B} (m : M (num:=num) A) (k : A -> M B) h1 h2 :
  m h1 = m h2 -> bind m k h1 = bind m k h2.
Proof. unfold bind. now intros ->. Qed.

Lemma plot_payoff_unfold pricer ot bt barrier (h : heap) e k :
  h !! pricer = Some e -> K e = Some k ->
  plot_payoff pricer ot bt barrier h
  = bind
      (for_each (linspace (fmul k (flit 0.5)) (fmul k (flit 1.5)) 100)
         (fun S => bind (setattr_S pricer (Some S))
                     (fun _ => price_barrier_option pricer ot bt barrier)))
      (fun option_prices =>
         ret (linspace (fmul k (flit 0.5)) (fmul k (flit 1.5)) 100,
              option_prices)) h.
Proof.
  intros Hl HK. unfold Engine.plot_payoff.
  unfold bind at 1. rewrite (deref_run _ _ _ Hl), HK.
  unfold bind at 1. rewrite binop_run.
  unfold bind at 1. rewrite (deref_run _ _ _ Hl), HK.
  unfold bind at 1. rewrite binop_run. reflexivity.
Qed.

(** X3.  [plot_payoff] never looks at the spot the pricer holds: it is
    overwritten before the first price is asked.  A pricer whose S has been
    replaced by any value gives the same curve (or the same exception), and
    when the strike is set the store left behind is the same as well. *)
Theorem plot_payoff_ignores_spot pricer ot bt barrier (h : heap) e s :
  h !! pricer = Some e ->
  let h' := <[pricer := set_S s e]> h in
  snd (plot_payoff pricer ot bt barrier h')
  = snd (plot_payoff pricer ot bt barrier h)
  /\ (K e <> None ->
      plot_payoff pricer ot bt barrier h'
      = plot_payoff pricer ot bt barrier h).
Proof.
  intros Hl h'.
  assert (Hl' : h' !! pricer = Some (set_S s e)).
  { apply list_lookup_insert_eq. eapply lookup_lt_Some, Hl. }
  destruct (K e) as [k|] eqn:HK.
  - assert (Heq : plot_payoff pricer ot bt barrier h'
                  = plot_payoff pricer ot bt barrier h).
    { rewrite (plot_payoff_unfold _ _ _ _ h' (set_S s e) k Hl' HK),
        (plot_payoff_unfold _ _ _ _ h e k Hl HK).
      destruct (linspace_cons (fmul k (flit 0.5)) (fmul k (flit 1.5)) 98)
        as (x & xs & ->).
      apply bind_same_run. cbn [for_each].
      do 2 apply bind_same_run.
      rewrite (setattr_S_run _ _ _ _ Hl'), (setattr_S_run _ _ _ _ Hl).
      f_equal. exact (list_insert_insert_eq h pricer _ (set_S s e)). }
    split; [now rewrite Heq | intros _; exact Heq].
  - split; [|congruence].
    unfold Engine.plot_payoff.
    unfold bind at 1. rewrite (deref_run _ _ _ Hl'). cbn [K set_S].
    rewrite HK. unfold bind at 1. rewrite binop_None_l.
    unfold bind at 1. rewrite (deref_run _ _ _ Hl), HK.
    unfold bind at 1. now rewrite binop_None_l.
Qed.

Lemma linspace_first start stop n :
  exists xs,
    linspace start stop (Datatypes.S (Datatypes.S n))
    = fadd (fmul (of_nat 0)
              (fdiv (fsub stop start) (of_nat (Datatypes.S n)))) start
      :: xs.
Proof.
  unfold Engine.linspace.
  replace (Datatypes.S (Datatypes.S n) - 1)%nat with (Datatypes.S n)
    by (destruct n; reflexivity).
  cbn [seq map app]. eauto.
Qed.

(** A sweep whose first price fails: the sample has been written. *)
Lemma sweep_first_fails pricer ot bt b e x xs ex (h : heap) s0 :
  h !! pricer = Some (set_S s0 e) ->
  price_result (set_S (Some x) e) ot bt b = Raise ex ->
  for_each (x :: xs)
    (fun S => bind (setattr_S pricer (Some S))
                (fun _ => price_barrier_option pricer ot bt b)) h
  = (<[pricer := set_S (Some x) e]> h, Raise ex).
Proof.
  intros Hl Hx. cbn [for_each]. unfold bind at 1. unfold bind at 1.
  rewrite (setattr_S_run _ _ _ _ Hl), set_S_idem.
  assert (Hl1 : <[pricer := set_S (Some x) e]> h !! pricer
                = Some (set_S (Some x) e)).
  { apply list_lookup_insert_eq. eapply lookup_lt_Some, Hl. }
  now rewrite (price_barrier_option_run _ _ _ _ _ _ _ _ _ _ _ _ _ _
                 _ _ _ _ _ _ Hl1), Hx.
Qed.

Lemma plot_payoff_first_fails pricer ot bt b (h : heap) e k ex :
  h !! pricer = Some e -> K e = Some k ->
  let x0 := fadd (fmul (of_nat 0)
                    (fdiv (fsub (fmul k (flit 1.5)) (fmul k (flit 0.5)))
                       (of_nat 99)))
              (fmul k (flit 0.5)) in
  price_result (set_S (Some x0) e) ot bt b = Raise ex ->
  plot_payoff pricer ot bt b h
  = (<[pricer := set_S (Some x0) e]> h, Raise ex).
Proof.
  intros Hl HK x0 Hx. subst x0.
  rewrite (plot_payoff_unfold _ _ _ _ h e k Hl HK).
  destruct (linspace_first (fmul k (flit 0.5)) (fmul k (flit 1.5)) 98)
    as (xs & ->).
  unfold bind at 1.
  rewrite (sweep_first_fails pricer ot bt b e _ xs ex h (S e));
    [reflexivity | now rewrite set_S_same | exact Hx].
Qed.

Lemma price_result_missing (e : engine (num:=num)) ot bt b :
  In None [S e; K e; T e; r e; sigma e; b] ->
  price_result e ot bt b
  = Raise (ValueError "All parameters must be non-None").
Proof.
  intros Hn%None_in_true.
  unfold Engine.price_result, Engine.price_barrier_option, bind, deref.
  cbn [lookup list_lookup]. now rewrite Hn.
Qed.

(** X4.  Error behaviour of [plot_payoff] when the strike is missing: the
    product [pricer.K * 0.5] raises [TypeError] before anything is written,
    so the store is untouched. *)
Theorem plot_payoff_without_strike pricer ot bt barrier (h : heap) e :
  h !! pricer = Some e -> K e = None ->
  plot_payoff pricer ot bt barrier h = (h, Raise TypeError).
Proof.
  intros Hl HK. unfold Engine.plot_payoff.
  unfold bind at 1. rewrite (deref_run _ _ _ Hl), HK.
  unfold bind. now rewrite binop_None_l.
Qed.

End EngineExtras.

Section ExactExtras.
Variable N : R -> R.
Local Open Scope R_scope.

Lemma price_result_unknown_barrier ot (barrier_type : string)
    (S K T r sigma H : R) :
  barrier_type <> "up-and-in"%string ->
  barrier_type <> "up-and-out"%string ->
  barrier_type <> "down-and-in"%string ->
  barrier_type <> "down-and-out"%string ->
  Exact.price_result N
    (AdvancedDerivativesPricing (Some S) (Some K) (Some T) (Some r)
       (Some sigma))
    (Spec.option_name ot) barrier_type (Some H)
  = Ok None.
Proof.
  intros H1 H2 H3 H4. apply String.eqb_neq in H1, H2, H3, H4.
  unfold Exact.price_result, Engine.price_result,
    Engine.price_barrier_option, bind, deref, as_float, ret.
  cbn [lookup list_lookup None_in existsb orb
       Engine.S Engine.K Engine.T Engine.r Engine.sigma].
  cbv zeta. rewrite H1, H2, H3, H4.
  destruct ot; reflexivity.
Qed.

(** X5.  On valid market parameters an option type other than 'call' and
    'put' makes [price_barrier_option] and [calculate_greeks] raise
    [ValueError] with the message "Invalid option type: " followed by the
    type, whatever the barrier type; [calculate_greeks] has then built no
    instance. *)
Theorem invalid_option_type_ValueError
    (h : heap) self (option_type barrier_type : string)
    (S K T r sigma H : R) :
  h !! self = Some (AdvancedDerivativesPricing
                      (Some S) (Some K) (Some T) (Some r) (Some sigma)) ->
  0 < S -> 0 < K -> 0 < T -> 0 < sigma -> 0 < H ->
  option_type <> "call"%string -> option_type <> "put"%string ->
  Exact.price_barrier_option N self option_type barrier_type (Some H) h
  = (h, Raise (ValueError ("Invalid option type: " ++ option_type)))
  /\ Exact.calculate_greeks N self option_type barrier_type (Some H) h
     = (h, Raise (ValueError ("Invalid option type: " ++ option_type))).
Proof.
  intros Hl _ _ _ _ _ H1 H2.
  now apply (unknown_option_type_raises N h self option_type barrier_type
               S K T r sigma H).
Qed.

(** X6.  On valid market parameters and with a valid option type, a barrier
    type that is none of the four names makes [calculate_greeks] raise
    [TypeError]: the base price and the first perturbed price are both
    [None], and their difference cannot be taken.  One instance, the
    S-up copy, has been built by then. *)
Theorem calculate_greeks_unknown_barrier_type
    (h : heap) self ot (barrier_type : string) (S K T r sigma H : R) :
  let e := AdvancedDerivativesPricing
             (Some S) (Some K) (Some T) (Some r) (Some sigma) in
  h !! self = Some e ->
  0 < S -> 0 < K -> 0 < T -> 0 < sigma -> 0 < H ->
  barrier_type <> "up-and-in"%string ->
  barrier_type <> "up-and-out"%string ->
  barrier_type <> "down-and-in"%string ->
  barrier_type <> "down-and-out"%string ->
  Exact.calculate_greeks N self (Spec.option_name ot) barrier_type (Some H) h
  = ((h ++ [set_S (Some (S + 1e-5)) e])%list, Raise TypeError).
Proof.
  intros e Hl _ _ _ _ _ H1 H2 H3 H4. unfold Exact.calculate_greeks.
  apply (calculate_greeks_None_price Rplus Rminus Rmult Rdiv Rpower pow Ropp
           ln sqrt exp N Exact.Rleb Exact.Rgeb Exact.Rgtb (fun x => x)
           self _ _ H h S K T r sigma Hl);
    now apply price_result_unknown_barrier.
Qed.

(** The four knocked branches. *)
Lemma knocked_price_result ot (S K T r sigma H : R) :
  let res bt :=
    Exact.price_result N
      (AdvancedDerivativesPricing (Some S) (Some K) (Some T) (Some r)
         (Some sigma))
      (Spec.option_name ot) bt (Some H) in
  (S <= H ->
   res "down-and-out"%string = Ok (Some 0)
   /\ res "down-and-in"%string
      = Ok (Some (Spec.vanilla N S K T r sigma ot)))
  /\ (S >= H ->
      res "up-and-out"%string = Ok (Some 0)
      /\ res "up-and-in"%string
         = Ok (Some (Spec.vanilla N S K T r sigma ot))).
Proof.
  cbv beta zeta.
  pose proof (price_result_spec N ot Spec.DownAndOut S K T r sigma H) as H1.
  pose proof (price_result_spec N ot Spec.DownAndIn S K T r sigma H) as H2.
  pose proof (price_result_spec N ot Spec.UpAndOut S K T r sigma H) as H3.
  pose proof (price_result_spec N ot Spec.UpAndIn S K T r sigma H) as H4.
  cbn [Spec.barrier_name] in H1, H2, H3, H4. rewrite H1, H2, H3, H4.
  unfold Spec.barrier_price. cbn [Spec.knock_dec Spec.degenerate].
  split; intros Hk.
  - destruct (Rle_dec S H); [split; reflexivity | contradiction].
  - destruct (Rge_dec S H); [split; reflexivity | contradiction].
Qed.

(** X7.  In the knocked region the two prices of a barrier side are
    complementary: the knock-out price is zero and the knock-in price is the
    vanilla Black-Scholes price, so they add up to it.  This is for
    [S <= H] with the down barriers and [S >= H] with the up barriers, the
    boundary [S = H] included. *)
Theorem knocked_in_plus_out_is_vanilla
    (h : heap) self ot (S K T r sigma H : R) :
  h !! self = Some (AdvancedDerivativesPricing
                      (Some S) (Some K) (Some T) (Some r) (Some sigma)) ->
  0 < S -> 0 < K -> 0 < T -> 0 < sigma -> 0 < H ->
  let price bt :=
    Exact.price_barrier_option N self (Spec.option_name ot) bt (Some H) h in
  (S <= H ->
   exists p_in p_out,
     price "down-and-in"%string = (h, Ok (Some p_in))
     /\ price "down-and-out"%string = (h, Ok (Some p_out))
     /\ p_out = 0
     /\ p_in + p_out = Spec.vanilla N S K T r sigma ot)
  /\ (S >= H ->
      exists p_in p_out,
        price "up-and-in"%string = (h, Ok (Some p_in))
        /\ price "up-and-out"%string = (h, Ok (Some p_out))
        /\ p_out = 0
        /\ p_in + p_out = Spec.vanilla N S K T r sigma ot).
Proof.
  intros Hl _ _ _ _ _ price. unfold price.
  rewrite !(exact_price_barrier_option_run N _ _ _ _ _ _ Hl).
  destruct (knocked_price_result ot S K T r sigma H) as [Hdown Hup].
  split; intros Hk.
  - destruct (Hdown Hk) as [-> ->]. do 2 eexists.
    repeat split; try reflexivity. lra.
  - destruct (Hup Hk) as [-> ->]. do 2 eexists.
    repeat split; try reflexivity. lra.
Qed.

(** X8.  Put-call parity of the knocked-in prices.  When [N] is symmetric,
    [N (-x) = 1 - N x], as the normal distribution function is, a knocked-in
    call exceeds the knocked-in put of the same barrier by
    [S - K * exp (- r * T)]. *)
Theorem knocked_in_put_call_parity
    (h : heap) self (S K T r sigma H : R) (barrier_type : string) :
  (forall x, N (- x) = 1 - N x) ->
  h !! self = Some (AdvancedDerivativesPricing
                      (Some S) (Some K) (Some T) (Some r) (Some sigma)) ->
  0 < S -> 0 < K -> 0 < T -> 0 < sigma -> 0 < H ->
  (barrier_type = "down-and-in"%string /\ S <= H)
  \/ (barrier_type = "up-and-in"%string /\ S >= H) ->
  exists call put,
    Exact.price_barrier_option N self "call" barrier_type (Some H) h
    = (h, Ok (Some call))
    /\ Exact.price_barrier_option N self "put" barrier_type (Some H) h
       = (h, Ok (Some put))
    /\ call - put = S - K * exp (- r * T).
Proof.
  intros Hsym Hl _ _ _ _ _ Hk.
  exists (Spec.vanilla N S K T r sigma Spec.Call),
    (Spec.vanilla N S K T r sigma Spec.Put).
  rewrite !(exact_price_barrier_option_run N _ _ _ _ _ _ Hl).
  destruct (knocked_price_result Spec.Call S K T r sigma H) as [Hcd Hcu].
  destruct (knocked_price_result Spec.Put S K T r sigma H) as [Hpd Hpu].
  cbn [Spec.option_name] in *.
  assert (Hpar : Spec.vanilla N S K T r sigma Spec.Call
                 - Spec.vanilla N S K T r sigma Spec.Put
                 = S - K * exp (- r * T)).
  { cbn [Spec.vanilla]. rewrite !Hsym, <- Ropp_mult_distr_l. ring. }
  destruct Hk as [[-> Hk] | [-> Hk]].
  - destruct (Hcd Hk) as [_ ->]. destruct (Hpd Hk) as [_ ->]. auto.
  - destruct (Hcu Hk) as [_ ->]. destruct (Hpu Hk) as [_ ->]. auto.
Qed.

(** X9.  The floor of the Theta step.  On valid market parameters (with a
    spot above the step) the instance [calculate_greeks] prices for Theta
    has maturity [T - eps/365] when that is at least
    [eps = 1e-5], and [eps] otherwise; so for a maturity below [eps] the
    perturbed maturity is larger than [T], not smaller. *)
Theorem theta_maturity_floor
    (h : heap) self ot bt (S K T r sigma H : R) :
  h !! self = Some (AdvancedDerivativesPricing
                      (Some S) (Some K) (Some T) (Some r) (Some sigma)) ->
  1e-5 < S -> 0 < K -> 0 < T -> 0 < sigma -> 0 < H ->
  exists h' greeks c,
    Exact.calculate_greeks N self
      (Spec.option_name ot) (Spec.barrier_name bt) (Some H) h
    = (h', Ok greeks)
    /\ h' !! (List.length h + 3)%nat = Some c
    /\ Engine.S c = Some S /\ Engine.K c = Some K /\ Engine.r c = Some r
    /\ Engine.sigma c = Some sigma
    /\ (1e-5 <= T - 1e-5 / 365 -> Engine.T c = Some (T - 1e-5 / 365))
    /\ (T - 1e-5 / 365 <= 1e-5 -> Engine.T c = Some 1e-5)
    /\ (T < 1e-5 -> exists T_down, Engine.T c = Some T_down /\ T < T_down).
Proof.
  intros Hl _ _ _ _ _. unfold Exact.calculate_greeks.
  erewrite calculate_greeks_run;
    [| exact Hl | apply (price_result_spec N) ..].
  do 3 eexists. split; [reflexivity|].
  split.
  { etransitivity; [apply (lookup_app_r h); lia|].
    replace (List.length h + 3 - List.length h)%nat with 3%nat by lia.
    reflexivity. }
  cbn [set_T Engine.S Engine.K Engine.T Engine.r Engine.sigma].
  rewrite py_max_Rmax.
  repeat split.
  - intros Hge. f_equal. apply Rmax_left. lra.
  - intros Hle. f_equal. apply Rmax_right. lra.
  - intros Hlt. eexists. split; [reflexivity|].
    apply Rlt_le_trans with (2 := Rmax_r _ _). lra.
Qed.

End ExactExtras.

Section FuturesAndCfdExtras.
Local Open Scope R_scope.

Lemma exact_price_futures_run self sc cy (h : heap) e (S T r : R) :
  h !! self = Some e ->
  Engine.S e = Some S -> Engine.T e = Some T -> Engine.r e = Some r ->
  Exact.price_futures self sc cy h = (h, Ok (S * exp ((r + (sc - cy)) * T))).
Proof. apply price_futures_run. Qed.

Lemma exp_le_mono (x y : R) : x <= y -> exp x <= exp y.
Proof.
  intros [Hlt | ->]; [left; now apply exp_increasing | right; reflexivity].
Qed.

Lemma exp_le_reflect (x y : R) : exp x <= exp y -> x <= y.
Proof.
  intros Hle. destruct (Rle_or_lt x y) as [|Hlt]; [assumption|].
  apply exp_increasing in Hlt. lra.
Qed.

(** X10.  Only the net carry matters to [price_futures]: raising the storage
    cost and the convenience yield by the same amount changes nothing, be it
    the price or the exception. *)
Theorem price_futures_net_carry self sc cy a (h : heap) :
  Exact.price_futures self (sc + a) (cy + a) h
  = Exact.price_futures self sc cy h.
Proof.
  unfold Exact.price_futures, Engine.price_futures, bind, deref.
  destruct (h !! self) as [e|]; [|reflexivity].
  destruct (None_in _); [reflexivity|].
  destruct (S e), (r e), (T e); cbn [as_float]; unfold ret, raise;
    try reflexivity.
  do 4 f_equal. lra.
Qed.

(** X11.  For a positive spot the futures price is positive, and for a
    maturity that is not negative it grows with the storage cost and falls
    with the convenience yield. *)
Theorem price_futures_positive_monotone
    (h : heap) self e (S T r sc cy : R) :
  h !! self = Some e ->
  Engine.S e = Some S -> Engine.T e = Some T -> Engine.r e = Some r ->
  0 < S -> 0 <= T ->
  exists F,
    Exact.price_futures self sc cy h = (h, Ok F)
    /\ 0 < F
    /\ (forall sc' F', sc <= sc' ->
        Exact.price_futures self sc' cy h = (h, Ok F') -> F <= F')
    /\ (forall cy' F', cy <= cy' ->
        Exact.price_futures self sc cy' h = (h, Ok F') -> F' <= F).
Proof.
  intros Hl HS HT Hr HSpos HTnn. eexists.
  split; [exact (exact_price_futures_run _ _ _ _ _ _ _ _ Hl HS HT Hr)|].
  split; [apply Rmult_lt_0_compat; [exact HSpos | apply exp_pos]|].
  split.
  - intros sc' F' Hsc.
    rewrite (exact_price_futures_run _ _ _ _ _ _ _ _ Hl HS HT Hr).
    intros [= <-]. apply Rmult_le_compat_l; [lra|].
    apply exp_le_mono. apply Rmult_le_compat_r; lra.
  - intros cy' F' Hcy.
    rewrite (exact_price_futures_run _ _ _ _ _ _ _ _ Hl HS HT Hr).
    intros [= <-]. apply Rmult_le_compat_l; [lra|].
    apply exp_le_mono. apply Rmult_le_compat_r; lra.
Qed.

(** X12.  The futures price against the spot.  At maturity zero, or with a
    net carry [r + storage_cost - convenience_yield] of zero, the futures
    price is the spot; for a positive spot and a positive maturity it is at
    or above the spot exactly when the net carry is not negative. *)
Theorem price_futures_versus_spot
    (h : heap) self e (S T r sc cy : R) :
  h !! self = Some e ->
  Engine.S e = Some S -> Engine.T e = Some T -> Engine.r e = Some r ->
  exists F,
    Exact.price_futures self sc cy h = (h, Ok F)
    /\ (T = 0 -> F = S)
    /\ (r + sc - cy = 0 -> F = S)
    /\ (0 < S -> 0 < T -> (S <= F <-> 0 <= r + sc - cy)).
Proof.
  intros Hl HS HT Hr. eexists.
  split; [exact (exact_price_futures_run _ _ _ _ _ _ _ _ Hl HS HT Hr)|].
  repeat split.
  - intros ->. rewrite Rmult_0_r, exp_0. lra.
  - intros Hc. replace (r + (sc - cy)) with 0 by lra.
    rewrite Rmult_0_l, exp_0. lra.
  - intros Hle.
    assert (H1 : 1 <= exp ((r + (sc - cy)) * T)).
    { apply Rmult_le_reg_l with S; [assumption | lra]. }
    rewrite <- exp_0 in H1. apply exp_le_reflect in H1.
    assert (0 <= r + (sc - cy)); [|lra].
    apply Rmult_le_reg_r with T; [assumption | lra].
  - intros Hc.
    assert (H1 : exp 0 <= exp ((r + (sc - cy)) * T)).
    { apply exp_le_mono. apply Rmult_le_pos; lra. }
    rewrite exp_0 in H1.
    replace S with (S * 1) at 1 by lra.
    apply Rmult_le_compat_l; lra.
Qed.

(** X13.  Futures prices chain.  Pricing to maturity [T1] and using the
    result as the spot of an engine with maturity [T2], the rate and the
    carry being the same, gives the price to maturity [T1 + T2]. *)
Theorem price_futures_chains
    (h : heap) l1 l2 e1 e2 (S T1 T2 r sc cy F1 : R) :
  h !! l1 = Some e1 ->
  Engine.S e1 = Some S -> Engine.T e1 = Some T1 -> Engine.r e1 = Some r ->
  Exact.price_futures l1 sc cy h = (h, Ok F1) ->
  h !! l2 = Some e2 ->
  Engine.S e2 = Some F1 -> Engine.T e2 = Some T2 -> Engine.r e2 = Some r ->
  Exact.price_futures l2 sc cy h
  = (h, Ok (S * exp ((r + sc - cy) * (T1 + T2)))).
Proof.
  intros Hl1 HS1 HT1 Hr1 HF1 Hl2 HS2 HT2 Hr2.
  rewrite (exact_price_futures_run _ _ _ _ _ _ _ _ Hl1 HS1 HT1 Hr1) in HF1.
  injection HF1 as <-.
  rewrite (exact_price_futures_run _ _ _ _ _ _ _ _ Hl2 HS2 HT2 Hr2).
  do 2 f_equal. rewrite Rmult_assoc, <- exp_plus. do 2 f_equal. lra.
Qed.

Lemma exact_price_cfd_run self position fr hp (h : heap) e (S r : R) :
  h !! self = Some e -> Engine.S e = Some S -> Engine.r e = Some r ->
  Exact.price_cfd self position fr hp h
  = (h,
     if String.eqb position "long" then
       Ok (S * (exp (r * (hp / 365)) - 1) - S * fr * hp / 365)
     else if String.eqb position "short" then
       Ok (- (S * (exp (r * (hp / 365)) - 1)) - S * fr * hp / 365)
     else Raise (ValueError "Invalid position type")).
Proof. apply price_cfd_run. Qed.

(** X14.  A CFD held for zero days is worth nothing, long or short,
    whatever the spot, the rate and the financing rate. *)
Theorem price_cfd_zero_holding_period
    (h : heap) self e (S r financing_rate : R) :
  h !! self = Some e -> Engine.S e = Some S -> Engine.r e = Some r ->
  Exact.price_cfd self "long" financing_rate 0 h = (h, Ok 0)
  /\ Exact.price_cfd self "short" financing_rate 0 h = (h, Ok 0).
Proof.
  intros Hl HS Hr.
  rewrite !(exact_price_cfd_run _ _ _ _ _ _ _ _ Hl HS Hr).
  cbn [String.eqb Ascii.eqb Bool.eqb].
  replace (r * (0 / 365)) with 0 by lra. rewrite exp_0.
  split; do 2 f_equal; lra.
Qed.

(** X15.  The two positions compared.  The long result exceeds the short
    one by twice the price move [S * (exp (r * days / 365) - 1)]; without
    financing the short result is the opposite of the long one; and at a
    zero rate both are the financing cost, paid. *)
Theorem price_cfd_long_against_short
    (h : heap) self e (S r financing_rate holding_period : R) :
  h !! self = Some e -> Engine.S e = Some S -> Engine.r e = Some r ->
  exists long short,
    Exact.price_cfd self "long" financing_rate holding_period h
    = (h, Ok long)
    /\ Exact.price_cfd self "short" financing_rate holding_period h
       = (h, Ok short)
    /\ long - short = 2 * (S * (exp (r * holding_period / 365) - 1))
    /\ (financing_rate = 0 -> short = - long)
    /\ (r = 0 ->
        long = - (S * financing_rate * holding_period / 365)
        /\ short = long).
Proof.
  intros Hl HS Hr. do 2 eexists.
  rewrite !(exact_price_cfd_run _ _ _ _ _ _ _ _ Hl HS Hr).
  cbn [String.eqb Ascii.eqb Bool.eqb].
  replace (r * holding_period / 365) with (r * (holding_period / 365))
    by lra.
  split; [reflexivity | split; [reflexivity|]].
  split; [lra | split].
  - intros ->. lra.
  - intros ->. rewrite Rmult_0_l, exp_0. lra.
Qed.

(** X16.  The CFD result is proportional to the spot: an engine whose spot
    is [c] times larger, at the same rate, gives [c] times the result. *)
Theorem price_cfd_scales_with_spot
    (h : heap) l1 l2 e1 e2 position (S r c fr hp v : R) :
  h !! l1 = Some e1 -> Engine.S e1 = Some S -> Engine.r e1 = Some r ->
  h !! l2 = Some e2 -> Engine.S e2 = Some (c * S) -> Engine.r e2 = Some r ->
  Exact.price_cfd l1 position fr hp h = (h, Ok v) ->
  Exact.price_cfd l2 position fr hp h = (h, Ok (c * v)).
Proof.
  intros Hl1 HS1 Hr1 Hl2 HS2 Hr2.
  rewrite (exact_price_cfd_run _ _ _ _ _ _ _ _ Hl1 HS1 Hr1),
    (exact_price_cfd_run _ _ _ _ _ _ _ _ Hl2 HS2 Hr2).
  destruct (String.eqb position "long").
  { intros [= <-]. do 2 f_equal. lra. }
  destruct (String.eqb position "short").
  { intros [= <-]. do 2 f_equal. lra. }
  discriminate.
Qed.

End FuturesAndCfdExtras.

Section PlotExtras.
Variable N : R -> R.
Local Open Scope R_scope.

Lemma first_sample (K : R) :
  INR 0 * ((K * 1.5 - K * 0.5) / INR 99) + K * 0.5 = 0.5 * K.
Proof. cbn [INR]. lra. Qed.

(** X17.  A sweep that cannot price leaves its mark.  When the strike is
    set but the maturity, the rate, the volatility or the barrier is
    missing, [plot_payoff] raises the [ValueError] of the first call to
    [price_barrier_option], and the spot of the pricer has by then been
    overwritten with the first sample [0.5 K]. *)
Theorem plot_payoff_failure_overwrites_spot
    (h : heap) pricer e ot bt barrier (K : R) :
  h !! pricer = Some e -> Engine.K e = Some K ->
  In None [Engine.T e; Engine.r e; Engine.sigma e; barrier] ->
  Exact.plot_payoff N pricer ot bt barrier h
  = (<[pricer := set_S (Some (0.5 * K)) e]> h,
     Raise (ValueError "All parameters must be non-None")).
Proof.
  intros Hl HK Hn. unfold Exact.plot_payoff.
  erewrite plot_payoff_first_fails; [| exact Hl | exact HK |].
  - cbv beta. now rewrite first_sample.
  - apply price_result_missing. cbn [set_S Engine.S Engine.K Engine.T
                                       Engine.r Engine.sigma].
    rewrite HK. cbn [In] in *. intuition.
Qed.

(** The sweep on a pricer whose strike is set, given the outcome of every
    price. *)
Lemma exact_plot_payoff_run
    (h : heap) pricer e ot bt barrier (K : R) (price : R -> option R) :
  h !! pricer = Some e -> Engine.K e = Some K ->
  (forall x, Exact.price_result N (set_S (Some x) e) ot bt barrier
             = Ok (price x)) ->
  Exact.plot_payoff N pricer ot bt barrier h
  = (<[pricer := set_S (Some (1.5 * K)) e]> h,
     Ok (Spec.samples K, map price (Spec.samples K))).
Proof.
  intros Hl HK Hprice. unfold Exact.plot_payoff.
  erewrite plot_payoff_run; [| exact Hl | exact HK |].
  - rewrite linspace_samples.
    replace (K * 1.5) with (1.5 * K) by lra. reflexivity.
  - rewrite linspace_samples. apply Forall2_map_r. exact Hprice.
Qed.

(** X18.  The pricer is left at the end of the sweep.  After [plot_payoff]
    has returned, a call of [price_barrier_option] on the same pricer
    prices at the spot [1.5 K], the last sample, and not at the spot the
    pricer was built with. *)
Theorem price_after_plot_payoff
    (h : heap) pricer e ot bt (K T r sigma H : R) :
  h !! pricer = Some e ->
  Engine.K e = Some K -> Engine.T e = Some T -> Engine.r e = Some r ->
  Engine.sigma e = Some sigma ->
  0 < K -> 0 < T -> 0 < sigma -> 0 < H ->
  exists h' curve,
    Exact.plot_payoff N pricer
      (Spec.option_name ot) (Spec.barrier_name bt) (Some H) h
    = (h', Ok curve)
    /\ Exact.price_barrier_option N pricer
         (Spec.option_name ot) (Spec.barrier_name bt) (Some H) h'
       = (h', Ok (Some (Spec.barrier_price N (1.5 * K) K T r sigma H ot bt))).
Proof.
  intros Hl HK HT Hr Hsg _ _ _ _.
  assert (Hprice : forall x,
             Exact.price_result N (set_S (Some x) e)
               (Spec.option_name ot) (Spec.barrier_name bt) (Some H)
             = Ok (Some (Spec.barrier_price N x K T r sigma H ot bt))).
  { intros x. unfold set_S. rewrite HK, HT, Hr, Hsg.
    apply price_result_spec. }
  do 2 eexists. split.
  - exact (exact_plot_payoff_run h pricer e _ _ _ K _ Hl HK Hprice).
  - erewrite exact_price_barrier_option_run.
    + now rewrite Hprice.
    + apply list_lookup_insert_eq. eapply lookup_lt_Some, Hl.
Qed.

(** X19.  With a valid option type and every parameter set, a barrier type
    that is none of the four names does not make [plot_payoff] fail: the
    curve it hands to the plot is [None] at each of the 100 samples. *)
Theorem plot_payoff_unknown_barrier_type
    (h : heap) pricer e ot (barrier_type : string) (K T r sigma H : R) :
  h !! pricer = Some e ->
  Engine.K e = Some K -> Engine.T e = Some T -> Engine.r e = Some r ->
  Engine.sigma e = Some sigma ->
  0 < K -> 0 < T -> 0 < sigma -> 0 < H ->
  barrier_type <> "up-and-in"%string ->
  barrier_type <> "up-and-out"%string ->
  barrier_type <> "down-and-in"%string ->
  barrier_type <> "down-and-out"%string ->
  Exact.plot_payoff N pricer (Spec.option_name ot) barrier_type (Some H) h
  = (<[pricer := set_S (Some (1.5 * K)) e]> h,
     Ok (Spec.samples K, repeat None 100)).
Proof.
  intros Hl HK HT Hr Hsg _ _ _ _ H1 H2 H3 H4.
  rewrite (exact_plot_payoff_run h pricer e _ _ _ K (fun _ => None) Hl HK).
  - reflexivity.
  - intros x. unfold set_S. rewrite HK, HT, Hr, Hsg.
    now apply price_result_unknown_barrier.
Qed.

Lemma lookup_map {A B} (f : A -> B) (l : list A) (i : nat) :
  map f l !! i = option_map f (l !! i).
Proof.
  revert i. induction l as [|a l IH]; intros [|i]; cbn; auto.
Qed.

Lemma lookup_samples (K : R) (i : nat) (x : R) :
  Spec.samples K !! i = Some x <-> (i < 100)%nat /\ x = Spec.sample K i.
Proof.
  unfold Spec.samples. rewrite lookup_map. split.
  - destruct (seq 0 100 !! i) as [j|] eqn:Hj; [|discriminate].
    apply lookup_seq in Hj as [-> Hlt]. cbn. intros [= <-]. auto.
  - intros [Hlt ->]. now rewrite (lookup_seq_lt 0 100 i Hlt).
Qed.

Lemma INR_99 : INR 99 = 99.
Proof. rewrite INR_IZR_INZ. reflexivity. Qed.

(** X20.  The spot samples of the sweep, [np.linspace(0.5 K, 1.5 K, 100)],
    for a positive strike: they increase strictly, two neighbours are
    [K / 99] apart, every one lies between [0.5 K] and [1.5 K], and none
    of them is the strike itself. *)
Theorem sweep_samples_ordered (K : R) :
  0 < K ->
  let xs := Engine.linspace Rplus Rminus Rmult Rdiv INR
              (K * 0.5) (K * 1.5) 100 in
  (forall i j x y, xs !! i = Some x -> xs !! j = Some y ->
     (i < j)%nat -> x < y)
  /\ (forall i x y, xs !! i = Some x -> xs !! (i + 1)%nat = Some y ->
      y - x = K / 99)
  /\ (forall i x, xs !! i = Some x ->
      0.5 * K <= x <= 1.5 * K /\ x <> K).
Proof.
  intros HK xs. unfold xs. rewrite linspace_samples.
  split; [|split].
  - intros i j x y [_ ->]%lookup_samples [_ ->]%lookup_samples Hij.
    unfold Spec.sample. apply lt_INR in Hij. nra.
  - intros i x y [_ ->]%lookup_samples [_ ->]%lookup_samples.
    unfold Spec.sample. rewrite plus_INR. cbn [INR]. lra.
  - intros i x [Hi ->]%lookup_samples. unfold Spec.sample.
    assert (Hle : INR i <= 99).
    { rewrite <- INR_99. apply le_INR. lia. }
    pose proof (pos_INR i) as Hnn.
    split; [split; nra|].
    intros Heq.
    assert (H2 : INR (2 * i) = INR 99).
    { rewrite mult_INR, INR_99. cbn [INR]. nra. }
    apply INR_eq in H2. lia.
Qed.

End PlotExtras.

(** * Properties of the results panel and of the main window *)

Section GuiExtras.
Context {num : Type}.
Variables (fadd fsub fmul fdiv fpow : num -> num -> num).
Variable fpowi : num -> nat -> num.
Variable fneg : num -> num.
Variables (np_log np_sqrt np_exp norm_cdf : num -> num).
Variables (fle fge fgt : num -> num -> bool).
Variable flit : R -> num.
Variable py_float : string -> result num.
Variable format_f : nat -> num -> string.

Local Abbreviation update_results := (Gui.update_results format_f).
Local Abbreviation add_greeks := (Gui.add_greeks format_f).
Local Abbreviation safe_float := (Gui.safe_float py_float).
Local Abbreviation prices :=
  (Gui.prices fadd fsub fmul fdiv fpow fpowi fneg np_log np_sqrt np_exp
     norm_cdf fle fge fgt flit py_float).
Local Abbreviation calculate_and_update :=
  (Gui.calculate_and_update fadd fsub fmul fdiv fpow fpowi fneg np_log
     np_sqrt np_exp norm_cdf fle fge fgt flit py_float format_f).

Lemma take_all_nil (layout : list Gui.cell) : Gui.take_all layout = [].
Proof. induction layout; auto. Qed.

Lemma add_greeks_length items : forall i layout,
  List.length (add_greeks i items layout)
  = (List.length layout + 2 * List.length items)%nat.
Proof.
  induction items as [|[g v] items IH]; intros i layout; cbn [Gui.add_greeks].
  - cbn. lia.
  - rewrite IH, length_app. cbn. lia.
Qed.

Lemma add_greeks_prefix items : forall i layout,
  exists tail, add_greeks i items layout = (layout ++ tail)%list.
Proof.
  induction items as [|[g v] items IH]; intros i layout; cbn [Gui.add_greeks].
  - exists []. now rewrite app_nil_r.
  - destruct (IH (Datatypes.S i)
                (layout ++ [Gui.QLabel (g ++ ":") true i 0;
                            Gui.QLabel (format_f 6 v) false i 1])%list)
      as [tail ->].
    rewrite <- app_assoc. eauto.
Qed.

Lemma add_greeks_lookup items : forall i layout j g v,
  items !! j = Some (g, v) ->
  add_greeks i items layout !! (List.length layout + 2 * j)%nat
  = Some (Gui.QLabel (g ++ ":") true (i + j) 0)
  /\ add_greeks i items layout !! (List.length layout + 2 * j + 1)%nat
     = Some (Gui.QLabel (format_f 6 v) false (i + j) 1).
Proof.
  induction items as [|[g0 v0] items IH]; intros i layout j g v Hj.
  - discriminate.
  - cbn [Gui.add_greeks]. destruct j as [|j].
    + injection Hj as -> ->.
      destruct (add_greeks_prefix items (Datatypes.S i)
                  (layout ++ [Gui.QLabel (g ++ ":") true i 0;
                              Gui.QLabel (format_f 6 v) false i 1])%list)
        as [tail ->].
      rewrite <- !app_assoc. cbn [app].
      replace (i + 0)%nat with i by lia.
      replace (List.length layout + 2 * 0)%nat
        with (List.length layout) by lia.
      split.
      * now apply list_lookup_middle.
      * change (layout ++ ?a :: ?b :: tail)%list
          with (layout ++ [a] ++ b :: tail)%list.
        rewrite app_assoc. apply list_lookup_middle.
        rewrite length_app. cbn. lia.
    + cbn in Hj.
      destruct (IH (Datatypes.S i)
                  (layout ++ [Gui.QLabel (g0 ++ ":") true i 0;
                              Gui.QLabel (format_f 6 v0) false i 1])%list
                  j g v Hj) as [H0 H1].
      rewrite length_app in H0, H1. cbn [List.length] in H0, H1.
      replace (i + Datatypes.S j)%nat with (Datatypes.S i + j)%nat by lia.
      replace (List.length layout + 2 * Datatypes.S j)%nat
        with (List.length layout + 2 + 2 * j)%nat by lia.
      auto.
Qed.

(** X21.  [update_results] shows the last results and nothing else.  The
    panel it leaves is the same whatever the panel showed before, so
    repeated updates do not pile up labels; the grid holds two labels for
    each Greek, and the Greek at position [i] of the dictionary is in row
    [i]: its name followed by a colon, right aligned, in column 0 and its
    value with six decimals in column 1. *)
Theorem update_results_replaces_panel
    (d1 d2 : Gui.ResultsDisplay) price greeks futures_price cfd_price :
  update_results d1 (Some price) greeks futures_price cfd_price
  = update_results d2 (Some price) greeks futures_price cfd_price
  /\ let layout :=
       Gui.greeks_layout
         (fst (update_results d1 (Some price) greeks futures_price
                 cfd_price)) in
     List.length layout = (2 * List.length greeks)%nat
     /\ forall i greek value,
          greeks !! i = Some (greek, value) ->
          layout !! (2 * i)%nat
          = Some (Gui.QLabel (greek ++ ":") true i 0)
          /\ layout !! (2 * i + 1)%nat
             = Some (Gui.QLabel (format_f 6 value) false i 1).
Proof.
  unfold Gui.update_results, Gui.clear_results.
  cbn [Gui.greeks_layout fst]. rewrite !take_all_nil.
  split; [reflexivity|]. cbv zeta. split.
  - now rewrite add_greeks_length.
  - intros i greek value Hi.
    exact (add_greeks_lookup greeks 0 [] i greek value Hi).
Qed.

Lemma safe_float_ok value name v (h : heap (num:=num)) :
  value <> "" -> py_float value = Ok v ->
  safe_float value name h = (h, Ok v).
Proof.
  intros Hne%String.eqb_neq Hv. unfold Gui.safe_float.
  now rewrite Hne, Hv.
Qed.

Lemma safe_float_empty name (h : heap (num:=num)) :
  safe_float "" name h
  = (h, Raise (ValueError (name ++ " cannot be empty"))).
Proof. reflexivity. Qed.

Lemma safe_float_raise value name e (h : heap (num:=num)) :
  value <> "" -> py_float value = Raise e ->
  safe_float value name h = (h, Raise e).
Proof.
  intros Hne%String.eqb_neq Hv. unfold Gui.safe_float.
  now rewrite Hne, Hv.
Qed.

Lemma safe_float_pure value name :
  exists res, forall h : heap (num:=num), safe_float value name h = (h, res).
Proof.
  unfold Gui.safe_float. destruct (String.eqb value ""); eauto.
Qed.

(** The earlier line edits hold a number each. *)
Ltac earlier_fields Hbefore :=
  repeat match goal with
  | |- context [Gui.safe_float _ ?t ?n ?h] =>
      let Hj := fresh "Hj" in
      first
        [ assert (Hj : t <> "" /\ exists v, py_float t = Ok v)
            by (first
                  [ apply (Hbefore 0%nat t n); [lia | reflexivity]
                  | apply (Hbefore 1%nat t n); [lia | reflexivity]
                  | apply (Hbefore 2%nat t n); [lia | reflexivity]
                  | apply (Hbefore 3%nat t n); [lia | reflexivity]
                  | apply (Hbefore 4%nat t n); [lia | reflexivity]
                  | apply (Hbefore 5%nat t n); [lia | reflexivity]
                  | apply (Hbefore 6%nat t n); [lia | reflexivity]
                  | apply (Hbefore 7%nat t n); [lia | reflexivity]
                  | apply (Hbefore 8%nat t n); [lia | reflexivity] ]);
          destruct Hj as [Hj [? ?]];
          erewrite (safe_float_ok t n _ h Hj) by eassumption;
          cbv beta iota; unfold bind at 1 ]
  end.

(** X22.  The first line edit that does not hold a number decides the
    outcome.  The edits are read in the order S, K, T, r, sigma, barrier,
    storage cost, convenience yield, financing rate, holding period.  When
    those before one of them are filled in and parse, and that one is
    empty, the call ends with the warning "<name> cannot be empty"; when it
    is not empty but [float] raises, the exception goes to the handlers
    (a warning with its message for a [ValueError]).  No pricer has been
    built and the panel is untouched. *)
Theorem first_invalid_field_stops
    (input : Gui.ParameterInput) (h : heap) (d : Gui.ResultsDisplay)
    i value name :
  Gui.entries input !! i = Some (value, name) ->
  (forall j t n, (j < i)%nat -> Gui.entries input !! j = Some (t, n) ->
     t <> "" /\ exists v, py_float t = Ok v) ->
  (value = "" ->
   calculate_and_update input h d
   = (h, d, Gui.warning "Input Error" (name ++ " cannot be empty")))
  /\ (forall e, value <> "" -> py_float value = Raise e ->
      calculate_and_update input h d = (h, d, Gui.handler e)).
Proof.
  intros Hi Hbefore. unfold Gui.entries in Hi, Hbefore.
  do 10 (destruct i as [|i];
         [ injection Hi as Hv Hn; split;
           [ intros He | intros e Hne He ];
           unfold Gui.calculate_and_update, Gui.prices;
           unfold bind at 1; earlier_fields Hbefore;
           rewrite Hv;
           [ rewrite He, <- Hn; now rewrite safe_float_empty
           | now rewrite (safe_float_raise value _ e h Hne He) ]
         | ]).
  discriminate.
Qed.

(** What the [try] block leaves: the store has only grown, and when the
    four prices have been obtained the barrier price is a number. *)
Lemma prices_outcome (input : Gui.ParameterInput) (h : heap) :
  exists fresh res,
    prices input h = ((h ++ fresh)%list, res)
    /\ forall pricer price greeks fut cfd barrier,
         res = Ok (pricer, price, greeks, fut, cfd, barrier) ->
         exists p, price = Some p.
Proof.
  unfold Gui.prices.
  do 10 (unfold bind at 1;
         match goal with
         | |- context [Gui.safe_float _ ?t ?n h] =>
             let res := fresh "res" in
             let Hs := fresh "Hs" in
             destruct (safe_float_pure t n) as [res Hs]; rewrite Hs;
             destruct res as [?|?];
             [ | exists [], (Raise e); rewrite app_nil_r;
                 split; [reflexivity | discriminate] ]
         end).
  unfold bind at 1. unfold new at 1. cbv beta iota.
  set (e := AdvancedDerivativesPricing _ _ _ _ _).
  assert (Hl : (h ++ [e])%list !! List.length h = Some e)
    by apply lookup_fresh.
  unfold bind at 1.
  rewrite (price_barrier_option_run _ _ _ _ _ _ _ _ _ _ _ _ _ _
             _ _ _ _ _ _ Hl).
  destruct (Engine.price_result _ _ _ _ _ _ _ _ _ _ _ _ _ _ e _ _ _)
    as [price|ex] eqn:Hprice.
  2:{ exists [e], (Raise ex). split; [reflexivity | discriminate]. }
  unfold bind at 1.
  match goal with
  | |- context [Engine.calculate_greeks _ _ _ _ _ _ _ _ _ _ _ _ _ _ _
                  ?l ?ot ?bt ?b ?h0] =>
      destruct (calculate_greeks_frame fadd fsub fmul fdiv fpow fpowi fneg
                  np_log np_sqrt np_exp norm_cdf fle fge fgt flit
                  l ot bt b h0 e Hl)
        as (fresh & res & -> & _ & Hok)
  end.
  destruct res as [greeks|ex].
  2:{ exists ([e] ++ fresh)%list, (Raise ex). rewrite app_assoc.
      split; [reflexivity | discriminate]. }
  destruct (Hok greeks eq_refl)
    as (s & t & r0 & sg & p0 & p1 & p2 & p3 & p4 & p5 & Hg).
  cbv zeta in Hg. destruct Hg as (_ & _ & _ & _ & _ & Hp0 & _).
  rewrite Hprice in Hp0. injection Hp0 as ->.
  unfold bind at 1.
  match goal with
  | |- context [Engine.price_futures ?a ?b ?c ?d ?l ?sc ?cy ?h0] =>
      pose proof (price_futures_fst a b c d l sc cy h0) as Hf;
      destruct (Engine.price_futures a b c d l sc cy h0) as [hf [fut|ex]]
  end; cbn [fst] in Hf; subst hf.
  2:{ exists ([e] ++ fresh)%list, (Raise ex). rewrite app_assoc.
      split; [reflexivity | discriminate]. }
  unfold bind at 1.
  match goal with
  | |- context [Engine.price_cfd ?a ?b ?c ?d ?f ?g ?l ?p ?fr ?hp ?h0] =>
      pose proof (price_cfd_fst a b c d f g l p fr hp h0) as Hc;
      destruct (Engine.price_cfd a b c d f g l p fr hp h0) as [hc [cfd|ex]]
  end; cbn [fst] in Hc; subst hc.
  2:{ exists ([e] ++ fresh)%list, (Raise ex). rewrite app_assoc.
      split; [reflexivity | discriminate]. }
  exists ([e] ++ fresh)%list. eexists. rewrite app_assoc.
  split; [reflexivity|].
  intros ? ? ? ? ? ? [= <- <- <- <- <- <-]. eauto.
Qed.

(** X23.  However [calculate_and_update] ends, it has written to no object
    that existed: the store is the one it was given, followed by what it
    built.  When it ends with a message box the results panel is exactly
    what it was, so the numbers of the previous calculation stay on
    screen. *)
Theorem calculate_and_update_on_failure
    (input : Gui.ParameterInput) (h : heap) (d : Gui.ResultsDisplay) :
  exists fresh d' eff,
    calculate_and_update input h d = ((h ++ fresh)%list, d', eff)
    /\ match eff with
       | Gui.singleShot _ _ _ _ _ => True
       | Gui.warning _ _ | Gui.critical _ _ => d' = d
       end.
Proof.
  unfold Gui.calculate_and_update.
  destruct (prices_outcome input h) as (fresh & res & -> & Hres).
  destruct res as [[[[[[pricer price] greeks] fut] cfd] barrier]|e].
  - destruct (Hres _ _ _ _ _ _ eq_refl) as [p ->].
    unfold Gui.update_results. do 3 eexists.
    split; [reflexivity | exact I].
  - exists fresh, d, (Gui.handler e). split; [reflexivity|].
    destruct e; reflexivity.
Qed.

End GuiExtras.

Section ExactGuiExtras.
Variable N : R -> R.
Variable py_float : string -> result R.
Variable format_f : nat -> R -> string.
Local Open Scope R_scope.

(** X24.  A calculation that goes through.  When the ten line edits parse,
    to valid market parameters (with a spot above the step of the Greeks),
    and the combo boxes hold a valid option
    type, barrier type and position, [calculate_and_update] builds one
    pricer from the parsed numbers, followed by the five instances of the
    Greeks; the panel shows the barrier price, the five Greeks, the futures
    price and the CFD result of these very numbers; and the timer is
    started with 100 ms for a plot on the same pricer. *)
Theorem calculate_and_update_shows_prices
    (input : Gui.ParameterInput) (h : heap) (d : Gui.ResultsDisplay)
    ot bt (long : bool) (S K T r sigma H sc cy fr hp : R) :
  Forall2 (fun entry v => fst entry <> ""%string /\ py_float (fst entry) = Ok v)
    (Gui.entries input) [S; K; T; r; sigma; H; sc; cy; fr; hp] ->
  Gui.option_type input = Spec.option_name ot ->
  Gui.barrier_type input = Spec.barrier_name bt ->
  Gui.cfd_position input = (if long then "long" else "short")%string ->
  1e-5 < S -> 0 < K -> 0 < T -> 0 < sigma -> 0 < H ->
  let e := AdvancedDerivativesPricing
             (Some S) (Some K) (Some T) (Some r) (Some sigma) in
  let move := S * (exp (r * (hp / 365)) - 1) in
  let financing := S * fr * hp / 365 in
  let g := Spec.greeks N ot bt S K T r sigma H in
  ExactGui.calculate_and_update N py_float format_f input h d
  = ((h ++ [e;
            set_S (Some (S + Spec.eps)) e;
            set_S (Some (S - Spec.eps)) e;
            set_sigma (Some (sigma + Spec.eps)) e;
            set_T (Some (Spec.T_floored T)) e;
            set_r (Some (r + Spec.eps)) e])%list,
     {| Gui.price_label :=
          "Barrier Option Price: "
          ++ format_f 4 (Spec.barrier_price N S K T r sigma H ot bt);
        Gui.greeks_layout :=
          flat_map
            (fun '(i, (greek, value)) =>
               [Gui.QLabel (greek ++ ":") true i 0;
                Gui.QLabel (format_f 6 value) false i 1])
            (combine (seq 0 5) g);
        Gui.futures_price_label :=
          "Futures Price: " ++ format_f 4 (S * exp ((r + sc - cy) * T));
        Gui.cfd_price_label :=
          "CFD Price: "
          ++ format_f 4 (if long then move - financing
                         else - move - financing) |},
     Gui.singleShot 100 (List.length h)
       (Spec.option_name ot) (Spec.barrier_name bt) (Some H)).
Proof.
  intros Hparse Hot Hbt Hpos _ _ _ _ _ e move financing g.
  unfold Gui.entries in Hparse.
  repeat match goal with
  | Hp : Forall2 _ (_ :: _) (_ :: _) |- _ =>
      apply Forall2_cons_1 in Hp as [[? ?] Hp]
  end.
  cbn [fst] in *.
  unfold ExactGui.calculate_and_update, Gui.calculate_and_update, Gui.prices.
  repeat (unfold bind at 1; erewrite safe_float_ok by eassumption;
          cbv beta iota).
  unfold bind at 1. unfold new at 1. cbv beta iota. fold e.
  assert (Hl : (h ++ [e])%list !! List.length h = Some e)
    by apply lookup_fresh.
  rewrite Hot, Hbt, Hpos.
  unfold bind at 1. fold (Exact.price_barrier_option N).
  rewrite (exact_price_barrier_option_run N _ _ _ _ _ _ Hl).
  pose proof (price_result_spec N ot bt S K T r sigma H) as Hp.
  fold e in Hp. rewrite Hp. clear Hp.
  unfold bind at 1.
  erewrite calculate_greeks_run;
    [| exact Hl | apply (price_result_spec N) ..].
  rewrite py_max_Rmax. cbv beta iota.
  unfold bind at 1.
  match goal with
  | |- context [Engine.price_futures _ _ _ _ _ _ _ ?h2] =>
      assert (Hl2 : h2 !! List.length h = Some e)
        by (apply lookup_app_l_Some; exact Hl)
  end.
  rewrite (price_futures_run Rplus Rminus Rmult exp _ _ _ _ e S T r Hl2
             eq_refl eq_refl eq_refl).
  cbv beta iota. unfold bind at 1.
  rewrite (price_cfd_run Rminus Rmult Rdiv Ropp exp (fun x => x)
             _ _ _ _ _ e S r Hl2 eq_refl eq_refl).
  replace (r + (sc - cy)) with (r + sc - cy) by lra.
  rewrite <- app_assoc.
  destruct long; cbn [String.eqb Ascii.eqb Bool.eqb]; cbv beta iota zeta;
    unfold ret, Gui.update_results, Gui.clear_results;
    cbn [Gui.greeks_layout]; rewrite take_all_nil; reflexivity.
Qed.

End ExactGuiExtras.

(** ** The further properties at concrete inputs *)

Lemma logistic_symmetric (x : R) :
  Examples.logistic (- x) = (1 - Examples.logistic x)%R.
Proof.
  unfold Examples.logistic. rewrite Ropp_involutive, exp_Ropp.
  pose proof (exp_pos x) as Hpos. field. split; lra.
Qed.

Lemma outcome_depends_on_attributes_only_witness :
  snd (Exact.calculate_greeks Examples.logistic 0%nat
         "call" "up-and-out" (Some 120%R) [Examples.market])
  = snd (Exact.calculate_greeks Examples.logistic 1%nat
           "call" "up-and-out" (Some 120%R)
           [Examples.no_strike; Examples.market]).
Proof.
  apply (outcome_depends_on_attributes_only
           Rplus Rminus Rmult Rdiv Rpower pow Ropp ln sqrt exp
           Examples.logistic Exact.Rleb Exact.Rgeb Exact.Rgtb (fun x => x)
           0%nat 1%nat [Examples.market] [Examples.no_strike; Examples.market]
           Examples.market "call" "up-and-out" (Some 120%R) 0%R 0%R);
    reflexivity.
Defined.

Lemma plot_payoff_ignores_spot_witness :
  Exact.plot_payoff Examples.logistic 0%nat
    "call" "up-and-out" (Some 120%R)
    [set_S (Some 7%R) Examples.market]
  = Exact.plot_payoff Examples.logistic 0%nat
      "call" "up-and-out" (Some 120%R) [Examples.market].
Proof.
  apply (plot_payoff_ignores_spot
           Rplus Rminus Rmult Rdiv Rpower pow Ropp ln sqrt exp
           Examples.logistic Exact.Rleb Exact.Rgeb (fun x => x) INR
           0%nat "call" "up-and-out" (Some 120%R) [Examples.market]
           Examples.market (Some 7%R) eq_refl).
  discriminate.
Defined.

Lemma plot_payoff_without_strike_witness :
  Exact.plot_payoff Examples.logistic 0%nat
    "call" "up-and-out" (Some 120%R) [Examples.no_strike]
  = ([Examples.no_strike], Raise TypeError).
Proof.
  apply (plot_payoff_without_strike
           Rplus Rminus Rmult Rdiv Rpower pow Ropp ln sqrt exp
           Examples.logistic Exact.Rleb Exact.Rgeb (fun x => x) INR
           0%nat "call" "up-and-out" (Some 120%R) [Examples.no_strike]
           Examples.no_strike);
    reflexivity.
Defined.

Lemma invalid_option_type_ValueError_witness :
  Exact.calculate_greeks Examples.logistic 0%nat
    "straddle" "up-and-out" (Some 120%R) [Examples.market]
  = ([Examples.market],
     Raise (ValueError "Invalid option type: straddle")).
Proof.
  apply (invalid_option_type_ValueError Examples.logistic [Examples.market]
           0%nat "straddle" "up-and-out" 100 100 1 0.05 0.2 120);
    first [reflexivity | lra | discriminate].
Defined.

Lemma calculate_greeks_unknown_barrier_type_witness :
  Exact.calculate_greeks Examples.logistic 0%nat
    "call" "sideways" (Some 120%R) [Examples.market]
  = ([Examples.market; set_S (Some (100 + 1e-5)%R) Examples.market],
     Raise TypeError).
Proof.
  apply (calculate_greeks_unknown_barrier_type Examples.logistic
           [Examples.market] 0%nat Spec.Call "sideways"
           100 100 1 0.05 0.2 120);
    first [reflexivity | lra | discriminate].
Defined.

Lemma knocked_in_plus_out_is_vanilla_witness :
  exists p_in p_out,
    Exact.price_barrier_option Examples.logistic 0%nat
      "call" "down-and-in" (Some 120%R) [Examples.market]
    = ([Examples.market], Ok (Some p_in))
    /\ Exact.price_barrier_option Examples.logistic 0%nat
         "call" "down-and-out" (Some 120%R) [Examples.market]
       = ([Examples.market], Ok (Some p_out))
    /\ p_out = 0%R
    /\ (p_in + p_out
        = Spec.vanilla Examples.logistic 100 100 1 0.05 0.2 Spec.Call)%R.
Proof.
  apply (knocked_in_plus_out_is_vanilla Examples.logistic [Examples.market]
           0%nat Spec.Call 100 100 1 0.05 0.2 120);
    first [reflexivity | lra].
Defined.

Lemma knocked_in_put_call_parity_witness :
  exists call put,
    Exact.price_barrier_option Examples.logistic 0%nat
      "call" "down-and-in" (Some 120%R) [Examples.market]
    = ([Examples.market], Ok (Some call))
    /\ Exact.price_barrier_option Examples.logistic 0%nat
         "put" "down-and-in" (Some 120%R) [Examples.market]
       = ([Examples.market], Ok (Some put))
    /\ (call - put = 100 - 100 * exp (- (0.05) * 1))%R.
Proof.
  apply (knocked_in_put_call_parity Examples.logistic [Examples.market]
           0%nat 100 100 1 0.05 0.2 120 "down-and-in" logistic_symmetric);
    first [reflexivity | lra | (left; split; [reflexivity | lra])].
Defined.

Lemma theta_maturity_floor_witness :
  exists h' greeks c,
    Exact.calculate_greeks Examples.logistic 0%nat
      "call" "up-and-out" (Some 120%R) [Examples.market]
    = (h', Ok greeks)
    /\ h' !! 4%nat = Some c
    /\ T c = Some (1 - 1e-5 / 365)%R.
Proof.
  destruct (theta_maturity_floor Examples.logistic [Examples.market] 0%nat
              Spec.Call Spec.UpAndOut 100 100 1 0.05 0.2 120 eq_refl
              ltac:(lra) ltac:(lra) ltac:(lra) ltac:(lra) ltac:(lra))
    as (h' & greeks & c & Hrun & Hc & _ & _ & _ & _ & HT & _).
  exists h', greeks, c. split; [exact Hrun|]. split; [exact Hc|].
  apply HT. lra.
Defined.

Lemma price_futures_positive_monotone_witness :
  exists F,
    Exact.price_futures 0%nat 0.02 0.01 [Examples.market]
    = ([Examples.market], Ok F)
    /\ (0 < F)%R.
Proof.
  destruct (price_futures_positive_monotone [Examples.market] 0%nat
              Examples.market 100 1 0.05 0.02 0.01
              eq_refl eq_refl eq_refl eq_refl ltac:(lra) ltac:(lra))
    as (F & Hrun & Hpos & _).
  exists F. split; [exact Hrun | exact Hpos].
Defined.

Lemma price_futures_versus_spot_witness :
  exists F,
    Exact.price_futures 0%nat 0.02 0.01 [Examples.market]
    = ([Examples.market], Ok F)
    /\ (100 <= F)%R.
Proof.
  destruct (price_futures_versus_spot [Examples.market] 0%nat
              Examples.market 100 1 0.05 0.02 0.01
              eq_refl eq_refl eq_refl eq_refl)
    as (F & Hrun & _ & _ & Hcmp).
  exists F. split; [exact Hrun|].
  apply (Hcmp ltac:(lra) ltac:(lra)). lra.
Defined.

Lemma price_futures_chains_witness :
  Exact.price_futures 1%nat 0.02 0.01
    [Examples.market; GuiExamples.rolled_market]
  = ([Examples.market; GuiExamples.rolled_market],
     Ok (100 * exp ((0.05 + 0.02 - 0.01) * (1 + 2)))%R).
Proof.
  apply (price_futures_chains [Examples.market; GuiExamples.rolled_market]
           0%nat 1%nat Examples.market GuiExamples.rolled_market
           100 1 2 0.05 0.02 0.01
           (100 * exp ((0.05 + (0.02 - 0.01)) * 1))%R);
    reflexivity.
Defined.

Lemma price_cfd_zero_holding_period_witness :
  Exact.price_cfd 0%nat "long" 0.0002 0 [Examples.spot_and_rate]
  = ([Examples.spot_and_rate], Ok 0%R).
Proof.
  apply (price_cfd_zero_holding_period [Examples.spot_and_rate] 0%nat
           Examples.spot_and_rate 100 0.05 0.0002);
    reflexivity.
Defined.

Lemma price_cfd_long_against_short_witness :
  exists long short,
    Exact.price_cfd 0%nat "long" 0.0002 30 [Examples.spot_and_rate]
    = ([Examples.spot_and_rate], Ok long)
    /\ Exact.price_cfd 0%nat "short" 0.0002 30 [Examples.spot_and_rate]
       = ([Examples.spot_and_rate], Ok short)
    /\ (long - short = 2 * (100 * (exp (0.05 * 30 / 365) - 1)))%R.
Proof.
  destruct (price_cfd_long_against_short [Examples.spot_and_rate] 0%nat
              Examples.spot_and_rate 100 0.05 0.0002 30
              eq_refl eq_refl eq_refl)
    as (long & short & Hl & Hs & Hd & _).
  exists long, short. auto.
Defined.

Lemma price_cfd_scales_with_spot_witness :
  Exact.price_cfd 1%nat "long" 0.0002 30
    [Examples.market; GuiExamples.tripled_market]
  = ([Examples.market; GuiExamples.tripled_market],
     Ok (3 * (100 * (exp (0.05 * (30 / 365)) - 1)
              - 100 * 0.0002 * 30 / 365))%R).
Proof.
  apply (price_cfd_scales_with_spot
           [Examples.market; GuiExamples.tripled_market] 0%nat 1%nat
           Examples.market GuiExamples.tripled_market "long"
           100 0.05 3 0.0002 30);
    reflexivity.
Defined.

Lemma plot_payoff_failure_overwrites_spot_witness :
  Exact.plot_payoff Examples.logistic 0%nat
    "call" "up-and-out" (Some 120%R) [GuiExamples.no_maturity]
  = ([set_S (Some (0.5 * 100)%R) GuiExamples.no_maturity],
     Raise (ValueError "All parameters must be non-None")).
Proof.
  apply (plot_payoff_failure_overwrites_spot Examples.logistic
           [GuiExamples.no_maturity] 0%nat GuiExamples.no_maturity
           "call" "up-and-out" (Some 120%R) 100 eq_refl eq_refl).
  left. reflexivity.
Defined.

Lemma price_after_plot_payoff_witness :
  exists h' curve,
    Exact.plot_payoff Examples.logistic 0%nat
      "call" "up-and-out" (Some 120%R) [Examples.market]
    = (h', Ok curve)
    /\ Exact.price_barrier_option Examples.logistic 0%nat
         "call" "up-and-out" (Some 120%R) h'
       = (h', Ok (Some (Spec.barrier_price Examples.logistic
                          (1.5 * 100) 100 1 0.05 0.2 120
                          Spec.Call Spec.UpAndOut))).
Proof.
  apply (price_after_plot_payoff Examples.logistic [Examples.market] 0%nat
           Examples.market Spec.Call Spec.UpAndOut 100 1 0.05 0.2 120);
    first [reflexivity | lra].
Defined.

Lemma plot_payoff_unknown_barrier_type_witness :
  Exact.plot_payoff Examples.logistic 0%nat
    "call" "sideways" (Some 120%R) [Examples.market]
  = ([set_S (Some (1.5 * 100)%R) Examples.market],
     Ok (Spec.samples 100, repeat None 100)).
Proof.
  apply (plot_payoff_unknown_barrier_type Examples.logistic
           [Examples.market] 0%nat Examples.market Spec.Call "sideways"
           100 1 0.05 0.2 120);
    first [reflexivity | lra | discriminate].
Defined.

Lemma sweep_samples_ordered_witness :
  let x := (INR 0 * ((100 * 1.5 - 100 * 0.5) / INR 99) + 100 * 0.5)%R in
  (0.5 * 100 <= x <= 1.5 * 100)%R /\ x <> 100%R.
Proof.
  destruct (sweep_samples_ordered 100 ltac:(lra)) as (_ & _ & Hin).
  apply (Hin 0%nat). reflexivity.
Defined.

Lemma first_invalid_field_stops_witness :
  ExactGui.calculate_and_update Examples.logistic
    GuiExamples.float_of_text GuiExamples.format_as_hash
    GuiExamples.form_without_strike [] GuiExamples.empty_panel
  = ([], GuiExamples.empty_panel,
     Gui.warning "Input Error" "Strike Price cannot be empty").
Proof.
  apply (first_invalid_field_stops
           Rplus Rminus Rmult Rdiv Rpower pow Ropp ln sqrt exp
           Examples.logistic Exact.Rleb Exact.Rgeb Exact.Rgtb (fun x => x)
           GuiExamples.float_of_text GuiExamples.format_as_hash
           GuiExamples.form_without_strike [] GuiExamples.empty_panel
           1%nat "" "Strike Price" eq_refl);
    [|reflexivity].
  intros [|j] t n Hj; [|lia]. intros [= <- <-].
  split; [discriminate | exists 100%R; reflexivity].
Defined.

Lemma calculate_and_update_shows_prices_witness :
  exists h' d',
    ExactGui.calculate_and_update Examples.logistic
      GuiExamples.float_of_text GuiExamples.format_as_hash
      GuiExamples.filled_form [] GuiExamples.empty_panel
    = (h', d', Gui.singleShot 100 0 "call" "up-and-out" (Some 120%R)).
Proof.
  do 2 eexists.
  apply (calculate_and_update_shows_prices Examples.logistic
           GuiExamples.float_of_text GuiExamples.format_as_hash
           GuiExamples.filled_form [] GuiExamples.empty_panel
           Spec.Call Spec.UpAndOut true
           100 100 1 0.05 0.2 120 0.02 0.01 0.0002 30);
    try reflexivity; try lra.
  repeat (constructor; [split; [discriminate | reflexivity]|]).
  constructor.
Defined.
